(** * Vapor chamber 1D analytical model: [Code/vaporchamer1dcalcs.py]

    A shallow embedding of [vapor_chamber_model] and the properties of its
    pressure balance, thermal resistance network and verdict.

    Arithmetic.  The script computes with Python floats.  The embedding reads
    every formula over the real numbers: [math.pi] is [PI], [math.sin] and
    [math.cos] are the real sine and cosine, [math.radians x] is
    [x * (PI / 180)], [x ** n] is [x ^ n].  Rounding, overflow and underflow
    are therefore outside the model.  What is kept from the Python semantics
    of [/] is its exception: a division whose divisor is zero raises
    [ZeroDivisionError] and aborts the function.

    Configuration.  The script fixes its inputs as local constants (lines
    9-55).  The embedding abstracts them into a record [Configuration], and
    [default_config] holds the shipped values.

    Output.  Standard output is a list of printed lines, threaded through
    [vapor_chamber_model]; a line keeps the pieces of its f-string, so the
    rendering of a number to decimal digits is not modelled. *)

From Stdlib Require Import Reals Lra Lia ZArith String List.
Import ListNotations.

Local Open Scope R_scope.

(** ** Exceptions and the error monad *)

(** The statement (named after the variable it assigns) in which a division
    by a computed quantity takes place. *)
Inductive site : Set :=
  | at_rc_eff | at_K_evap | at_K_cond | at_d_h_vapor
  | at_dP_cap | at_dP_l_cond | at_dP_l_evap | at_dP_v
  | at_vapor_pressure_term | at_liquid_pressure_term | at_Q_max
  | at_k_wick_evap | at_k_wick_cond
  | at_R_evap_wall | at_R_evap_wick | at_R_cond_wick | at_R_cond_wall.

(** Source line of each such statement. *)
Definition line_of (s : site) : nat :=
  match s with
  | at_rc_eff => 70 | at_K_evap => 71 | at_K_cond => 72 | at_d_h_vapor => 91
  | at_dP_cap => 99 | at_dP_l_cond => 100 | at_dP_l_evap => 101
  | at_dP_v => 104 | at_vapor_pressure_term => 110
  | at_liquid_pressure_term => 111 | at_Q_max => 113
  | at_k_wick_evap => 117 | at_k_wick_cond => 119
  | at_R_evap_wall => 123 | at_R_evap_wick => 124
  | at_R_cond_wick => 126 | at_R_cond_wall => 127
  end%nat.

(** The numbered sections of the script. *)
Inductive stage : Set :=
  | DerivedParameters      (* 3. derived parameter calculation *)
  | CapillaryPerformance   (* 4. capillary performance analysis *)
  | ThermalResistance      (* 5. thermal resistance network analysis *)
  | ResultsSummary.        (* 6. results summary *)

Definition stage_of (s : site) : stage :=
  match s with
  | at_rc_eff | at_K_evap | at_K_cond | at_d_h_vapor => DerivedParameters
  | at_dP_cap | at_dP_l_cond | at_dP_l_evap | at_dP_v
  | at_vapor_pressure_term | at_liquid_pressure_term | at_Q_max =>
      CapillaryPerformance
  | at_k_wick_evap | at_k_wick_cond
  | at_R_evap_wall | at_R_evap_wick | at_R_cond_wick | at_R_cond_wall =>
      ThermalResistance
  end.

(** The only exception the arithmetic of the script can raise. *)
Inductive exn : Set :=
  | ZeroDivisionError (s : site).

Inductive result (A : Type) : Type :=
  | Ok (a : A)
  | Raise (e : exn).
Arguments Ok {A} a.
Arguments Raise {A} e.

Definition bind {A B : Type} (m : result A) (k : A -> result B) : result B :=
  match m with
  | Ok a => k a
  | Raise e => Raise e
  end.

Notation "x <- m ;; k" := (bind m (fun x => k))
  (at level 61, m at next level, right associativity).

(** Python's [x / y] on numbers. *)
Definition div_at (s : site) (x y : R) : result R :=
  if Req_dec_T y 0 then Raise (ZeroDivisionError s) else Ok (x / y).

(** ** Configuration (lines 7-55) *)

Record Configuration : Type := {
  (* boundary conditions and operational parameters *)
  T_op : R;
  Q_in : R;
  phi_deg : R;
  (* fabrication and experimental parameters *)
  filling_ratio : R;
  target_vacuum_Pa : R;
  (* model calibration *)
  experimental_correction_factor : R;
  (* envelope geometry *)
  vc_length : R;
  vc_width : R;
  (* internal component geometry *)
  t_evap_wall : R;
  t_cond_wall : R;
  t_vapor : R;
  (* heat source *)
  evap_length : R;
  evap_width : R;
  (* material *)
  k_shell : R;
  (* evaporator wick *)
  mesh_number_evap_wpi : R;
  d_w_evap : R;
  num_layers_evap : Z;
  (* condenser wick *)
  mesh_number_cond_wpi : R;
  d_w_cond : R;
  num_layers_cond : Z;
  (* working fluid at T_op *)
  rho_l : R;
  rho_v : R;
  mu_l : R;
  mu_v : R;
  sigma : R;
  h_fg : R;
  k_l : R;
  theta_deg : R
}.

(** The values of lines 9-55. *)
Definition default_config : Configuration := {|
  T_op := 70 + 273.15;
  Q_in := 150;
  phi_deg := 0;
  filling_ratio := 0.30;
  target_vacuum_Pa := 10;
  experimental_correction_factor := 1.2;
  vc_length := 0.070;
  vc_width := 0.070;
  t_evap_wall := 0.00225;
  t_cond_wall := 0.00225;
  t_vapor := 0.00192;
  evap_length := 0.020;
  evap_width := 0.020;
  k_shell := 380;
  mesh_number_evap_wpi := 200;
  d_w_evap := 0.000051;
  num_layers_evap := 5;
  mesh_number_cond_wpi := 80;
  d_w_cond := 0.00015;
  num_layers_cond := 5;
  rho_l := 977.8;
  rho_v := 0.198;
  mu_l := 4.04e-4;
  mu_v := 1.09e-5;
  sigma := 0.0644;
  h_fg := 2.33e6;
  k_l := 0.668;
  theta_deg := 0
|}.

(** ** Constants of the script *)

Definition in_to_m : R := 0.0254.          (* line 59 *)
Definition C_vapor : R := 96.              (* line 103 *)
Definition g : R := 9.81.                  (* line 105 *)
Definition R_phase_change_const : R := 0.01.  (* line 125 *)

(** [math.radians]. *)
Definition radians (x : R) : R := x * (PI / 180).

(** ** Derived state (lines 57-131 and 163) *)

Record Derived : Type := {
  mesh_number_evap : R;
  mesh_number_cond : R;
  t_evap_wick : R;
  t_cond_wick : R;
  epsilon_evap : R;
  epsilon_cond : R;
  rc_eff : R;
  K_evap : R;
  K_cond : R;
  L_eff : R;
  internal_area : R;
  vol_vapor_space : R;
  vol_evap_wick_pore : R;
  vol_cond_wick_pore : R;
  vol_internal_total : R;
  liquid_charge_volume_mL : R;
  A_evap : R;
  A_cond : R;
  A_wick_evap : R;
  A_wick_cond : R;
  A_vapor : R;
  d_h_vapor : R;
  phi : R;
  theta : R;
  dP_cap : R;
  dP_l_cond : R;
  dP_l_evap : R;
  dP_l : R;
  dP_v : R;
  dP_g : R;
  dP_total : R;
  vapor_pressure_term : R;
  liquid_pressure_term : R;
  Q_max : R;
  k_wick_evap : R;
  k_wick_cond : R;
  R_evap_wall : R;
  R_evap_wick : R;
  R_phase_change : R;
  R_cond_wick : R;
  R_cond_wall : R;
  R_total_ideal : R;
  R_total_corrected : R;
  delta_T : R
}.

(** Sections 3 to 5 of the script, statement by statement.  A division by a
    literal ([in_to_m], [2], [4]) cannot raise and is written [/]; every
    division by a computed quantity goes through [div_at]. *)
Definition derive (c : Configuration) : result Derived :=
  (* --- 3. derived parameter calculation --- *)
  let mesh_number_evap := mesh_number_evap_wpi c / in_to_m in
  let mesh_number_cond := mesh_number_cond_wpi c / in_to_m in
  let t_evap_wick := 2 * d_w_evap c * IZR (num_layers_evap c) in
  let t_cond_wick := 2 * d_w_cond c * IZR (num_layers_cond c) in
  let epsilon_evap := 1 - (PI * mesh_number_evap * d_w_evap c) / 4 in
  let epsilon_cond := 1 - (PI * mesh_number_cond * d_w_cond c) / 4 in
  rc_eff <- div_at at_rc_eff 1 (2 * mesh_number_evap) ;;
  K_evap <- div_at at_K_evap (d_w_evap c ^ 2 * epsilon_evap ^ 3)
                             (122 * (1 - epsilon_evap) ^ 2) ;;
  K_cond <- div_at at_K_cond (d_w_cond c ^ 2 * epsilon_cond ^ 3)
                             (122 * (1 - epsilon_cond) ^ 2) ;;
  let L_eff := (vc_length c + evap_length c) / 4 in
  let internal_area := vc_length c * vc_width c in
  let vol_vapor_space := internal_area * t_vapor c in
  let vol_evap_wick_pore := internal_area * t_evap_wick * epsilon_evap in
  let vol_cond_wick_pore := internal_area * t_cond_wick * epsilon_cond in
  let vol_internal_total :=
    vol_vapor_space + vol_evap_wick_pore + vol_cond_wick_pore in
  let liquid_charge_volume_mL :=
    (vol_internal_total * filling_ratio c) * 1e6 in
  let A_evap := evap_length c * evap_width c in
  let A_cond := (vc_length c * vc_width c) - A_evap in
  let A_wick_evap := t_evap_wick * vc_width c in
  let A_wick_cond := t_cond_wick * vc_width c in
  let A_vapor := t_vapor c * vc_width c in
  d_h_vapor <- div_at at_d_h_vapor (2 * t_vapor c * vc_width c)
                                   (t_vapor c + vc_width c) ;;
  (* --- 4. capillary performance analysis --- *)
  let phi := radians (phi_deg c) in
  let theta := radians (theta_deg c) in
  dP_cap <- div_at at_dP_cap (2 * sigma c * cos theta) rc_eff ;;
  dP_l_cond <- div_at at_dP_l_cond (mu_l c * Q_in c * (L_eff / 2))
                 (rho_l c * A_wick_cond * K_cond * h_fg c) ;;
  dP_l_evap <- div_at at_dP_l_evap (mu_l c * Q_in c * (L_eff / 2))
                 (rho_l c * A_wick_evap * K_evap * h_fg c) ;;
  let dP_l := dP_l_cond + dP_l_evap in
  dP_v <- div_at at_dP_v (C_vapor * mu_v c * Q_in c * L_eff)
            (2 * rho_v c * A_vapor * d_h_vapor ^ 2 * h_fg c) ;;
  let dP_g := rho_l c * g * L_eff * sin phi in
  let dP_total := dP_l + dP_v + dP_g in
  vapor_pressure_term <-
    div_at at_vapor_pressure_term (C_vapor * mu_v c * L_eff)
      (2 * rho_v c * A_vapor * d_h_vapor ^ 2 * h_fg c) ;;
  lpt_cond <- div_at at_liquid_pressure_term (mu_l c * (L_eff / 2))
                (rho_l c * A_wick_cond * K_cond * h_fg c) ;;
  lpt_evap <- div_at at_liquid_pressure_term (mu_l c * (L_eff / 2))
                (rho_l c * A_wick_evap * K_evap * h_fg c) ;;
  let liquid_pressure_term := lpt_cond + lpt_evap in
  Q_max <- div_at at_Q_max (dP_cap - dP_g)
             (liquid_pressure_term + vapor_pressure_term) ;;
  (* --- 5. thermal resistance network analysis --- *)
  kr_evap <- div_at at_k_wick_evap
               (k_shell c + k_l c + (1 - epsilon_evap) * (k_shell c - k_l c))
               (k_shell c + k_l c - (1 - epsilon_evap) * (k_shell c - k_l c)) ;;
  let k_wick_evap := k_l c * kr_evap in
  kr_cond <- div_at at_k_wick_cond
               (k_shell c + k_l c + (1 - epsilon_cond) * (k_shell c - k_l c))
               (k_shell c + k_l c - (1 - epsilon_cond) * (k_shell c - k_l c)) ;;
  let k_wick_cond := k_l c * kr_cond in
  R_evap_wall <- div_at at_R_evap_wall (t_evap_wall c) (k_shell c * A_evap) ;;
  R_evap_wick <- div_at at_R_evap_wick t_evap_wick (k_wick_evap * A_evap) ;;
  let R_phase_change := R_phase_change_const in
  R_cond_wick <- div_at at_R_cond_wick t_cond_wick (k_wick_cond * A_cond) ;;
  R_cond_wall <- div_at at_R_cond_wall (t_cond_wall c) (k_shell c * A_cond) ;;
  let R_total_ideal :=
    R_evap_wall + R_evap_wick + R_phase_change + R_cond_wick + R_cond_wall in
  let R_total_corrected := R_total_ideal * experimental_correction_factor c in
  (* --- line 163 --- *)
  let delta_T := Q_in c * R_total_corrected in
  Ok {| mesh_number_evap := mesh_number_evap;
        mesh_number_cond := mesh_number_cond;
        t_evap_wick := t_evap_wick;
        t_cond_wick := t_cond_wick;
        epsilon_evap := epsilon_evap;
        epsilon_cond := epsilon_cond;
        rc_eff := rc_eff;
        K_evap := K_evap;
        K_cond := K_cond;
        L_eff := L_eff;
        internal_area := internal_area;
        vol_vapor_space := vol_vapor_space;
        vol_evap_wick_pore := vol_evap_wick_pore;
        vol_cond_wick_pore := vol_cond_wick_pore;
        vol_internal_total := vol_internal_total;
        liquid_charge_volume_mL := liquid_charge_volume_mL;
        A_evap := A_evap;
        A_cond := A_cond;
        A_wick_evap := A_wick_evap;
        A_wick_cond := A_wick_cond;
        A_vapor := A_vapor;
        d_h_vapor := d_h_vapor;
        phi := phi;
        theta := theta;
        dP_cap := dP_cap;
        dP_l_cond := dP_l_cond;
        dP_l_evap := dP_l_evap;
        dP_l := dP_l;
        dP_v := dP_v;
        dP_g := dP_g;
        dP_total := dP_total;
        vapor_pressure_term := vapor_pressure_term;
        liquid_pressure_term := liquid_pressure_term;
        Q_max := Q_max;
        k_wick_evap := k_wick_evap;
        k_wick_cond := k_wick_cond;
        R_evap_wall := R_evap_wall;
        R_evap_wick := R_evap_wick;
        R_phase_change := R_phase_change;
        R_cond_wick := R_cond_wick;
        R_cond_wall := R_cond_wall;
        R_total_ideal := R_total_ideal;
        R_total_corrected := R_total_corrected;
        delta_T := delta_T |}.

(** ** Valid configurations *)

(** The porosity formula of lines 68-69, as a function of the mesh count per
    inch and the wire diameter. *)
Definition porosity (wpi d_w : R) : R := 1 - (PI * (wpi / in_to_m) * d_w) / 4.

(** Strictly positive inputs, both porosities in the open unit interval and a
    heat source smaller than the plate. *)
Record valid_config (c : Configuration) : Prop := {
  v_vc_length : 0 < vc_length c;
  v_vc_width : 0 < vc_width c;
  v_t_vapor : 0 < t_vapor c;
  v_evap_length : 0 < evap_length c;
  v_evap_width : 0 < evap_width c;
  v_k_shell : 0 < k_shell c;
  v_mesh_evap : 0 < mesh_number_evap_wpi c;
  v_d_w_evap : 0 < d_w_evap c;
  v_layers_evap : (0 < num_layers_evap c)%Z;
  v_mesh_cond : 0 < mesh_number_cond_wpi c;
  v_d_w_cond : 0 < d_w_cond c;
  v_layers_cond : (0 < num_layers_cond c)%Z;
  v_rho_l : 0 < rho_l c;
  v_rho_v : 0 < rho_v c;
  v_mu_l : 0 < mu_l c;
  v_mu_v : 0 < mu_v c;
  v_h_fg : 0 < h_fg c;
  v_k_l : 0 < k_l c;
  v_eps_evap : 0 < porosity (mesh_number_evap_wpi c) (d_w_evap c) < 1;
  v_eps_cond : 0 < porosity (mesh_number_cond_wpi c) (d_w_cond c) < 1;
  v_A_cond : evap_length c * evap_width c < vc_length c * vc_width c
}.

(** ** Results summary (lines 133-164) *)

(** A printed line is kept as the pieces of its f-string: literal text, a
    number with the digits of its [.Nf] format, and an embedded newline. *)
Inductive piece : Type :=
  | Lit (s : string)
  | Num (x : R) (decimals : nat)
  | NL.

Definition line : Type := list piece.

(** Standard output: the lines printed so far. *)
Definition stdout : Type := list line.

(** The condition of line 155. *)
Definition capillary_limit_met (d : Derived) : bool :=
  if Rge_dec (dP_cap d) (dP_total d) then true else false.

(** Lines 134-154. *)
Definition summary_head (c : Configuration) (d : Derived) : list line :=
  [ [Lit "===================================================="];
    [Lit "   VAPOR CHAMBER 1D ANALYTICAL MODEL - RESULTS"];
    [Lit "===================================================="; NL];
    [Lit "--- DERIVED WICK GEOMETRY ---"];
    [Lit "Total Evaporator Wick Thickness: ";
     Num (t_evap_wick d * 1000) 2; Lit " mm"];
    [Lit "Total Condenser Wick Thickness:  ";
     Num (t_cond_wick d * 1000) 2; Lit " mm"; NL];
    [Lit "--- FABRICATION TARGETS ---"];
    [Lit "Target Filling Ratio: "; Num (filling_ratio c * 100) 0; Lit " %"];
    [Lit "Required Liquid Charge Volume: ";
     Num (liquid_charge_volume_mL d) 4; Lit " mL"];
    [Lit "Target Initial Vacuum: "; Num (target_vacuum_Pa c) 2; Lit " Pa"; NL];
    [Lit "--- ANALYSIS CONDITIONS ---"];
    [Lit "Operating Temperature: "; Num (T_op c - 273.15) 1; Lit " C"];
    [Lit "Input Heat Load (Q_in): "; Num (Q_in c) 1; Lit " W"];
    [Lit "Orientation Angle: "; Num (phi_deg c) 1; Lit " degrees"; NL];
    [Lit "--- PRESSURE BALANCE ANALYSIS ---"];
    [Lit "Max Capillary Pressure (dP_cap):   "; Num (dP_cap d) 2; Lit " Pa"];
    [Lit "Total Pressure Drop (dP_total):    "; Num (dP_total d) 2; Lit " Pa"];
    [Lit "  - Liquid Drop (dP_l):            "; Num (dP_l d) 2; Lit " Pa"];
    [Lit "  - Vapor Drop (dP_v):             "; Num (dP_v d) 2; Lit " Pa"];
    [Lit "  - Gravity Drop (dP_g):           "; Num (dP_g d) 2; Lit " Pa"; NL];
    [Lit "--- PREDICTED PERFORMANCE METRICS ---"] ]%string.

(** Lines 155-159. *)
Definition verdict_lines (c : Configuration) (d : Derived) : list line :=
  if capillary_limit_met d then
    [ [Lit "YES! CAPILLARY LIMIT: MET for the specified heat load (";
       Num (Q_in c) 1; Lit " W)."] ]%string
  else
    [ [Lit "NO! CAPILLARY LIMIT: FAILED. Wick cannot sustain the required flow."];
      [Lit "   The design is limited to Q_max = "; Num (Q_max d) 1;
       Lit " W under these conditions."] ]%string.

(** Lines 160-164. *)
Definition summary_tail (c : Configuration) (d : Derived) : list line :=
  [ [Lit "Maximum Heat Transport (Q_max): "; Num (Q_max d) 1; Lit " W"];
    [Lit "Ideal Thermal Resistance (R_ideal): ";
     Num (R_total_ideal d) 4; Lit " K/W"];
    [Lit "Corrected Thermal Resistance (R_corrected): ";
     Num (R_total_corrected d) 4; Lit " K/W"];
    [Lit "Predicted Corrected Temp. Drop (Î”T): ";
     Num (delta_T d) 2; Lit " C"; NL] ]%string.

Definition results_summary (c : Configuration) (d : Derived) : list line :=
  summary_head c d ++ verdict_lines c d ++ summary_tail c d.

(** ** The function [vapor_chamber_model]

    It takes no argument and returns nothing; its effect is on standard
    output.  Every division precedes the first [print], so a raised exception
    leaves the output as it was. *)
Definition vapor_chamber_model (c : Configuration) (out : stdout)
  : stdout * result unit :=
  match derive c with
  | Ok d => (out ++ results_summary c d, Ok tt)
  | Raise e => (out, Raise e)
  end.

(** ** Varying one input *)

Definition with_Q_in (c : Configuration) (q : R) : Configuration := {|
  T_op := T_op c;
  Q_in := q;
  phi_deg := phi_deg c;
  filling_ratio := filling_ratio c;
  target_vacuum_Pa := target_vacuum_Pa c;
  experimental_correction_factor := experimental_correction_factor c;
  vc_length := vc_length c;
  vc_width := vc_width c;
  t_evap_wall := t_evap_wall c;
  t_cond_wall := t_cond_wall c;
  t_vapor := t_vapor c;
  evap_length := evap_length c;
  evap_width := evap_width c;
  k_shell := k_shell c;
  mesh_number_evap_wpi := mesh_number_evap_wpi c;
  d_w_evap := d_w_evap c;
  num_layers_evap := num_layers_evap c;
  mesh_number_cond_wpi := mesh_number_cond_wpi c;
  d_w_cond := d_w_cond c;
  num_layers_cond := num_layers_cond c;
  rho_l := rho_l c;
  rho_v := rho_v c;
  mu_l := mu_l c;
  mu_v := mu_v c;
  sigma := sigma c;
  h_fg := h_fg c;
  k_l := k_l c;
  theta_deg := theta_deg c
|}.

(** Replaces the condenser wick specification (lines 42-44). *)
Definition with_cond_wick (c : Configuration) (wpi d_w : R) (layers : Z)
  : Configuration := {|
  T_op := T_op c;
  Q_in := Q_in c;
  phi_deg := phi_deg c;
  filling_ratio := filling_ratio c;
  target_vacuum_Pa := target_vacuum_Pa c;
  experimental_correction_factor := experimental_correction_factor c;
  vc_length := vc_length c;
  vc_width := vc_width c;
  t_evap_wall := t_evap_wall c;
  t_cond_wall := t_cond_wall c;
  t_vapor := t_vapor c;
  evap_length := evap_length c;
  evap_width := evap_width c;
  k_shell := k_shell c;
  mesh_number_evap_wpi := mesh_number_evap_wpi c;
  d_w_evap := d_w_evap c;
  num_layers_evap := num_layers_evap c;
  mesh_number_cond_wpi := wpi;
  d_w_cond := d_w;
  num_layers_cond := layers;
  rho_l := rho_l c;
  rho_v := rho_v c;
  mu_l := mu_l c;
  mu_v := mu_v c;
  sigma := sigma c;
  h_fg := h_fg c;
  k_l := k_l c;
  theta_deg := theta_deg c
|}.

(** Replaces the evaporator wick specification (lines 37-39). *)
Definition with_evap_wick (c : Configuration) (wpi d_w : R) (layers : Z)
  : Configuration := {|
  T_op := T_op c;
  Q_in := Q_in c;
  phi_deg := phi_deg c;
  filling_ratio := filling_ratio c;
  target_vacuum_Pa := target_vacuum_Pa c;
  experimental_correction_factor := experimental_correction_factor c;
  vc_length := vc_length c;
  vc_width := vc_width c;
  t_evap_wall := t_evap_wall c;
  t_cond_wall := t_cond_wall c;
  t_vapor := t_vapor c;
  evap_length := evap_length c;
  evap_width := evap_width c;
  k_shell := k_shell c;
  mesh_number_evap_wpi := wpi;
  d_w_evap := d_w;
  num_layers_evap := layers;
  mesh_number_cond_wpi := mesh_number_cond_wpi c;
  d_w_cond := d_w_cond c;
  num_layers_cond := num_layers_cond c;
  rho_l := rho_l c;
  rho_v := rho_v c;
  mu_l := mu_l c;
  mu_v := mu_v c;
  sigma := sigma c;
  h_fg := h_fg c;
  k_l := k_l c;
  theta_deg := theta_deg c
|}.

(** Replaces the orientation angle (line 11). *)
Definition with_phi_deg (c : Configuration) (a : R) : Configuration := {|
  T_op := T_op c;
  Q_in := Q_in c;
  phi_deg := a;
  filling_ratio := filling_ratio c;
  target_vacuum_Pa := target_vacuum_Pa c;
  experimental_correction_factor := experimental_correction_factor c;
  vc_length := vc_length c;
  vc_width := vc_width c;
  t_evap_wall := t_evap_wall c;
  t_cond_wall := t_cond_wall c;
  t_vapor := t_vapor c;
  evap_length := evap_length c;
  evap_width := evap_width c;
  k_shell := k_shell c;
  mesh_number_evap_wpi := mesh_number_evap_wpi c;
  d_w_evap := d_w_evap c;
  num_layers_evap := num_layers_evap c;
  mesh_number_cond_wpi := mesh_number_cond_wpi c;
  d_w_cond := d_w_cond c;
  num_layers_cond := num_layers_cond c;
  rho_l := rho_l c;
  rho_v := rho_v c;
  mu_l := mu_l c;
  mu_v := mu_v c;
  sigma := sigma c;
  h_fg := h_fg c;
  k_l := k_l c;
  theta_deg := theta_deg c
|}.

(** ** The divisors of the script

    Every quantity the script divides by, in the order of the statements, on
    a configuration [c] with derived state [d]. *)
Record positive_divisors (c : Configuration) (d : Derived) : Prop := {
  pd_rc_eff : 0 < 2 * mesh_number_evap d;                       (* line 70 *)
  pd_K_evap : 0 < 122 * (1 - epsilon_evap d) ^ 2;               (* line 71 *)
  pd_K_cond : 0 < 122 * (1 - epsilon_cond d) ^ 2;               (* line 72 *)
  pd_d_h_vapor : 0 < t_vapor c + vc_width c;                    (* line 91 *)
  pd_dP_cap : 0 < rc_eff d;                                     (* line 99 *)
  pd_dP_l_cond : 0 < rho_l c * A_wick_cond d * K_cond d * h_fg c;  (* 100, 111 *)
  pd_dP_l_evap : 0 < rho_l c * A_wick_evap d * K_evap d * h_fg c;  (* 101, 112 *)
  pd_dP_v :
    0 < 2 * rho_v c * A_vapor d * d_h_vapor d ^ 2 * h_fg c;     (* 104, 110 *)
  pd_Q_max : 0 < liquid_pressure_term d + vapor_pressure_term d;   (* line 113 *)
  pd_k_wick_evap :
    0 < k_shell c + k_l c - (1 - epsilon_evap d) * (k_shell c - k_l c);
  pd_k_wick_cond :
    0 < k_shell c + k_l c - (1 - epsilon_cond d) * (k_shell c - k_l c);
  pd_R_evap_wall : 0 < k_shell c * A_evap d;                    (* line 123 *)
  pd_R_evap_wick : 0 < k_wick_evap d * A_evap d;                (* line 124 *)
  pd_R_cond_wick : 0 < k_wick_cond d * A_cond d;                (* line 126 *)
  pd_R_cond_wall : 0 < k_shell c * A_cond d;                    (* line 127 *)
  (* the factors named by the areas and the latent heat *)
  pd_A_wick_evap : 0 < A_wick_evap d;
  pd_A_wick_cond : 0 < A_wick_cond d;
  pd_A_vapor : 0 < A_vapor d;
  pd_h_fg : 0 < h_fg c
}.

(** [raises_by n r]: the run [r] ended in an exception raised at or before
    source line [n]. *)
Definition raises_by (n : nat) (r : result Derived) : Prop :=
  match r with
  | Ok _ => False
  | Raise (ZeroDivisionError s) => (line_of s <= n)%nat
  end.

(** The shipped configuration with an evaporator wick of no layer. *)
Definition no_evap_layer_config : Configuration :=
  with_evap_wick default_config 200 0.000051 0.

(** The shipped configuration under a heat load of 200 kW. *)
Definition overload_config : Configuration :=
  with_Q_in default_config 200000.

(** The shipped configuration with a 180 um evaporator wire, thicker than the
    127 um pitch of the 200 wpi mesh. *)
Definition thick_evap_wire_config : Configuration :=
  with_evap_wick default_config 200 0.00018 5.

(** The shipped configuration with an evaporator wire of no thickness. *)
Definition no_evap_wire_config : Configuration :=
  with_evap_wick default_config 200 0 5.

(** ** The assignments of the script

    Each variable of sections 3 to 5 equals the right-hand side of its
    assignment, read on the configuration and on the variables assigned
    before it. *)
Record assignments (c : Configuration) (d : Derived) : Prop := {
  as_mesh_number_evap : mesh_number_evap d = mesh_number_evap_wpi c / in_to_m;
  as_mesh_number_cond : mesh_number_cond d = mesh_number_cond_wpi c / in_to_m;
  as_t_evap_wick : t_evap_wick d = 2 * d_w_evap c * IZR (num_layers_evap c);
  as_t_cond_wick : t_cond_wick d = 2 * d_w_cond c * IZR (num_layers_cond c);
  as_epsilon_evap :
    epsilon_evap d = 1 - (PI * mesh_number_evap d * d_w_evap c) / 4;
  as_epsilon_cond :
    epsilon_cond d = 1 - (PI * mesh_number_cond d * d_w_cond c) / 4;
  as_rc_eff : rc_eff d = 1 / (2 * mesh_number_evap d);
  as_K_evap :
    K_evap d = (d_w_evap c ^ 2 * epsilon_evap d ^ 3)
               / (122 * (1 - epsilon_evap d) ^ 2);
  as_K_cond :
    K_cond d = (d_w_cond c ^ 2 * epsilon_cond d ^ 3)
               / (122 * (1 - epsilon_cond d) ^ 2);
  as_L_eff : L_eff d = (vc_length c + evap_length c) / 4;
  as_internal_area : internal_area d = vc_length c * vc_width c;
  as_vol_vapor_space : vol_vapor_space d = internal_area d * t_vapor c;
  as_vol_evap_wick_pore :
    vol_evap_wick_pore d = internal_area d * t_evap_wick d * epsilon_evap d;
  as_vol_cond_wick_pore :
    vol_cond_wick_pore d = internal_area d * t_cond_wick d * epsilon_cond d;
  as_vol_internal_total :
    vol_internal_total d =
      vol_vapor_space d + vol_evap_wick_pore d + vol_cond_wick_pore d;
  as_liquid_charge_volume_mL :
    liquid_charge_volume_mL d = (vol_internal_total d * filling_ratio c) * 1e6;
  as_A_evap : A_evap d = evap_length c * evap_width c;
  as_A_cond : A_cond d = (vc_length c * vc_width c) - A_evap d;
  as_A_wick_evap : A_wick_evap d = t_evap_wick d * vc_width c;
  as_A_wick_cond : A_wick_cond d = t_cond_wick d * vc_width c;
  as_A_vapor : A_vapor d = t_vapor c * vc_width c;
  as_d_h_vapor :
    d_h_vapor d = (2 * t_vapor c * vc_width c) / (t_vapor c + vc_width c);
  as_phi : phi d = radians (phi_deg c);
  as_theta : theta d = radians (theta_deg c);
  as_dP_cap : dP_cap d = (2 * sigma c * cos (theta d)) / rc_eff d;
  as_dP_l_cond :
    dP_l_cond d = (mu_l c * Q_in c * (L_eff d / 2))
                  / (rho_l c * A_wick_cond d * K_cond d * h_fg c);
  as_dP_l_evap :
    dP_l_evap d = (mu_l c * Q_in c * (L_eff d / 2))
                  / (rho_l c * A_wick_evap d * K_evap d * h_fg c);
  as_dP_l : dP_l d = dP_l_cond d + dP_l_evap d;
  as_dP_v :
    dP_v d = (C_vapor * mu_v c * Q_in c * L_eff d)
             / (2 * rho_v c * A_vapor d * d_h_vapor d ^ 2 * h_fg c);
  as_dP_g : dP_g d = rho_l c * g * L_eff d * sin (phi d);
  as_dP_total : dP_total d = dP_l d + dP_v d + dP_g d;
  as_vapor_pressure_term :
    vapor_pressure_term d =
      (C_vapor * mu_v c * L_eff d)
      / (2 * rho_v c * A_vapor d * d_h_vapor d ^ 2 * h_fg c);
  as_liquid_pressure_term :
    liquid_pressure_term d =
      ((mu_l c * (L_eff d / 2))
       / (rho_l c * A_wick_cond d * K_cond d * h_fg c))
      + ((mu_l c * (L_eff d / 2))
         / (rho_l c * A_wick_evap d * K_evap d * h_fg c));
  as_Q_max :
    Q_max d = (dP_cap d - dP_g d)
              / (liquid_pressure_term d + vapor_pressure_term d);
  as_k_wick_evap :
    k_wick_evap d =
      k_l c * ((k_shell c + k_l c + (1 - epsilon_evap d) * (k_shell c - k_l c))
               / (k_shell c + k_l c
                  - (1 - epsilon_evap d) * (k_shell c - k_l c)));
  as_k_wick_cond :
    k_wick_cond d =
      k_l c * ((k_shell c + k_l c + (1 - epsilon_cond d) * (k_shell c - k_l c))
               / (k_shell c + k_l c
                  - (1 - epsilon_cond d) * (k_shell c - k_l c)));
  as_R_evap_wall : R_evap_wall d = t_evap_wall c / (k_shell c * A_evap d);
  as_R_evap_wick : R_evap_wick d = t_evap_wick d / (k_wick_evap d * A_evap d);
  as_R_phase_change : R_phase_change d = 0.01;
  as_R_cond_wick : R_cond_wick d = t_cond_wick d / (k_wick_cond d * A_cond d);
  as_R_cond_wall : R_cond_wall d = t_cond_wall c / (k_shell c * A_cond d);
  as_R_total_ideal :
    R_total_ideal d =
      R_evap_wall d + R_evap_wick d + R_phase_change d
      + R_cond_wick d + R_cond_wall d;
  as_R_total_corrected :
    R_total_corrected d = R_total_ideal d * experimental_correction_factor c;
  as_delta_T : delta_T d = Q_in c * R_total_corrected d
}.

(** The numbers a report shows. *)
Definition numbers_of (report : list line) : list R :=
  flat_map (flat_map (fun p => match p with Num x _ => [x] | _ => [] end))
           report.

(** ** Further variations of one input *)

(** Replaces the heat source footprint (lines 30-31). *)
Definition with_heat_source (c : Configuration) (len wid : R)
  : Configuration := {|
  T_op := T_op c;
  Q_in := Q_in c;
  phi_deg := phi_deg c;
  filling_ratio := filling_ratio c;
  target_vacuum_Pa := target_vacuum_Pa c;
  experimental_correction_factor := experimental_correction_factor c;
  vc_length := vc_length c;
  vc_width := vc_width c;
  t_evap_wall := t_evap_wall c;
  t_cond_wall := t_cond_wall c;
  t_vapor := t_vapor c;
  evap_length := len;
  evap_width := wid;
  k_shell := k_shell c;
  mesh_number_evap_wpi := mesh_number_evap_wpi c;
  d_w_evap := d_w_evap c;
  num_layers_evap := num_layers_evap c;
  mesh_number_cond_wpi := mesh_number_cond_wpi c;
  d_w_cond := d_w_cond c;
  num_layers_cond := num_layers_cond c;
  rho_l := rho_l c;
  rho_v := rho_v c;
  mu_l := mu_l c;
  mu_v := mu_v c;
  sigma := sigma c;
  h_fg := h_fg c;
  k_l := k_l c;
  theta_deg := theta_deg c
|}.

(** Replaces the layer count of the evaporator wick (line 39). *)
Definition with_layers_evap (c : Configuration) (layers : Z) : Configuration :=
  with_evap_wick c (mesh_number_evap_wpi c) (d_w_evap c) layers.

(** The divisors of the script, in the order of the statements, all
    different from zero. *)
Record nonzero_divisors (c : Configuration) (d : Derived) : Prop := {
  nd_rc_eff : 2 * mesh_number_evap d <> 0;
  nd_K_evap : 122 * (1 - epsilon_evap d) ^ 2 <> 0;
  nd_K_cond : 122 * (1 - epsilon_cond d) ^ 2 <> 0;
  nd_d_h_vapor : t_vapor c + vc_width c <> 0;
  nd_dP_cap : rc_eff d <> 0;
  nd_dP_l_cond : rho_l c * A_wick_cond d * K_cond d * h_fg c <> 0;
  nd_dP_l_evap : rho_l c * A_wick_evap d * K_evap d * h_fg c <> 0;
  nd_dP_v : 2 * rho_v c * A_vapor d * d_h_vapor d ^ 2 * h_fg c <> 0;
  nd_Q_max : liquid_pressure_term d + vapor_pressure_term d <> 0;
  nd_k_wick_evap :
    k_shell c + k_l c - (1 - epsilon_evap d) * (k_shell c - k_l c) <> 0;
  nd_k_wick_cond :
    k_shell c + k_l c - (1 - epsilon_cond d) * (k_shell c - k_l c) <> 0;
  nd_R_evap_wall : k_shell c * A_evap d <> 0;
  nd_R_evap_wick : k_wick_evap d * A_evap d <> 0;
  nd_R_cond_wick : k_wick_cond d * A_cond d <> 0;
  nd_R_cond_wall : k_shell c * A_cond d <> 0
}.

(** A valid configuration with margins: every input that enters a divisor
    lies between 10^-9 and 10^9, the layer counts between 1 and 1000, both
    porosities between 0.01 and 0.99, and the heat source covers at most 99%
    of the plate.  The margins keep every divisor of the script away from
    zero by more than the rounding of the float arithmetic. *)
Record well_conditioned (c : Configuration) : Prop := {
  wc_vc_length : 1e-9 <= vc_length c <= 1e9;
  wc_vc_width : 1e-9 <= vc_width c <= 1e9;
  wc_t_evap_wall : 1e-9 <= t_evap_wall c <= 1e9;
  wc_t_cond_wall : 1e-9 <= t_cond_wall c <= 1e9;
  wc_t_vapor : 1e-9 <= t_vapor c <= 1e9;
  wc_evap_length : 1e-9 <= evap_length c <= 1e9;
  wc_evap_width : 1e-9 <= evap_width c <= 1e9;
  wc_k_shell : 1e-9 <= k_shell c <= 1e9;
  wc_mesh_evap : 1e-9 <= mesh_number_evap_wpi c <= 1e9;
  wc_d_w_evap : 1e-9 <= d_w_evap c <= 1e9;
  wc_layers_evap : (1 <= num_layers_evap c <= 1000)%Z;
  wc_mesh_cond : 1e-9 <= mesh_number_cond_wpi c <= 1e9;
  wc_d_w_cond : 1e-9 <= d_w_cond c <= 1e9;
  wc_layers_cond : (1 <= num_layers_cond c <= 1000)%Z;
  wc_rho_l : 1e-9 <= rho_l c <= 1e9;
  wc_rho_v : 1e-9 <= rho_v c <= 1e9;
  wc_mu_l : 1e-9 <= mu_l c <= 1e9;
  wc_mu_v : 1e-9 <= mu_v c <= 1e9;
  wc_h_fg : 1e-9 <= h_fg c <= 1e9;
  wc_k_l : 1e-9 <= k_l c <= 1e9;
  wc_eps_evap :
    0.01 <= porosity (mesh_number_evap_wpi c) (d_w_evap c) <= 0.99;
  wc_eps_cond :
    0.01 <= porosity (mesh_number_cond_wpi c) (d_w_cond c) <= 0.99;
  wc_A_cond :
    evap_length c * evap_width c <= 0.99 * (vc_length c * vc_width c)
}.

(** ** Basic facts about the monad and the checked division *)

Lemma div_at_ok (s : site) (x y : R) : y <> 0 -> div_at s x y = Ok (x / y).
Proof.
  intros Hy. unfold div_at. destruct (Req_dec_T y 0) as [E | _].
  - contradiction.
  - reflexivity.
Qed.

Lemma div_at_zero (s : site) (x y : R) :
  y = 0 -> div_at s x y = Raise (ZeroDivisionError s).
Proof.
  intros Hy. unfold div_at. destruct (Req_dec_T y 0) as [_ | N].
  - reflexivity.
  - contradiction.
Qed.

Lemma bind_div_at_inv {B : Type} (s : site) (x y : R)
      (k : R -> result B) (b : B) :
  bind (div_at s x y) k = Ok b -> y <> 0 /\ k (x / y) = Ok b.
Proof.
  unfold div_at. destruct (Req_dec_T y 0) as [E | N]; simpl.
  - discriminate.
  - intros H. split; assumption.
Qed.

Lemma bind_div_at_ok {B : Type} (s : site) (x y : R) (k : R -> result B) :
  y <> 0 -> bind (div_at s x y) k = k (x / y).
Proof. intros Hy. rewrite div_at_ok by assumption. reflexivity. Qed.

Lemma bind_div_at_zero {B : Type} (s : site) (x y : R) (k : R -> result B) :
  y = 0 -> bind (div_at s x y) k = Raise (ZeroDivisionError s).
Proof. intros Hy. rewrite div_at_zero by assumption. reflexivity. Qed.

(** ** Proof automation *)

(** Inversion of a successful run: every divisor met on the way is non-zero
    and the result is the record of the formulas. *)
Ltac derive_inv H :=
  unfold derive in H; cbv zeta in H;
  repeat (apply bind_div_at_inv in H; cbv beta in H;
          let N := fresh "Hnz" in destruct H as [N H]);
  injection H as H; subst.

(** Strict positivity of products, quotients, powers and sums. *)
Ltac pos :=
  match goal with
  | |- 0 < _ * _ => apply Rmult_lt_0_compat; pos
  | |- 0 < _ / _ => apply Rdiv_lt_0_compat; pos
  | |- 0 < _ ^ _ => apply pow_lt; pos
  | |- 0 < _ + _ => apply Rplus_lt_0_compat; pos
  | |- 0 < IZR _ => apply IZR_lt; assumption
  | |- 0 < _ => assumption || lra
  end.

Ltac nonzero := apply Rgt_not_eq, Rlt_gt; pos.

(** The next statement of [derive] either raises or goes on. *)
Ltac raise_or_step :=
  match goal with
  | |- raises_by _ (bind (div_at ?s ?x ?y) ?k) =>
      let E := fresh "E" in
      destruct (Req_dec_T y 0) as [E | E];
      [ rewrite (bind_div_at_zero s x y k E); cbn; lia
      | rewrite (bind_div_at_ok s x y k E); cbv beta; clear E ]
  end.

(** A product, quotient or power is non-zero when its factors are. *)
Ltac nz :=
  match goal with
  | |- _ * _ <> 0 => apply Rmult_integral_contrapositive_currified; nz
  | |- _ / _ <> 0 =>
      unfold Rdiv at 1; apply Rmult_integral_contrapositive_currified;
      [ nz | apply Rinv_neq_0_compat; nz ]
  | |- _ ^ _ <> 0 => apply pow_nonzero; nz
  | |- _ <> 0 => lra
  end.

Ltac step_nz := rewrite bind_div_at_ok; [ cbv beta | nz ].

(** Forgets the non-zero divisors collected by [derive_inv]. *)
Ltac clear_nz := repeat match goal with H : _ <> 0 |- _ => clear H end.

(** One statement of [derive] whose divisor is non-zero. *)
Ltac step := rewrite bind_div_at_ok; [ cbv beta | try nonzero ].

(** ** Real arithmetic *)

(** The effective-medium ratio of lines 117-120, for conductivities [ks]
    and [kl] and a porosity [e] in the unit interval. *)
Section WickConductivity.

Variables ks kl e : R.
Hypothesis Hks : 0 < ks.
Hypothesis Hkl : 0 < kl.
Hypothesis He : 0 < e < 1.

Lemma k_wick_num_pos : 0 < ks + kl + (1 - e) * (ks - kl).
Proof. destruct He as [He0 He1]. nra. Qed.

Lemma k_wick_den_pos : 0 < ks + kl - (1 - e) * (ks - kl).
Proof. destruct He as [He0 He1]. nra. Qed.

Lemma k_wick_ratio_ge_1 :
  kl <= ks ->
  1 <= (ks + kl + (1 - e) * (ks - kl)) / (ks + kl - (1 - e) * (ks - kl)).
Proof.
  intros Hle.
  assert (Hden := k_wick_den_pos).
  destruct He as [He0 He1].
  assert (Hx : 0 <= (1 - e) * (ks - kl)) by (apply Rmult_le_pos; lra).
  apply Rmult_le_reg_r with (ks + kl - (1 - e) * (ks - kl)); [ assumption | ].
  unfold Rdiv. rewrite Rmult_assoc, Rinv_l by lra. lra.
Qed.

End WickConductivity.

Lemma add_neg_lt (a b : R) : b < 0 -> a + b < a.
Proof. intros Hb. lra. Qed.

Lemma gravity_drop_neg (rho len s : R) :
  0 < rho -> 0 < len -> s < 0 -> rho * 9.81 * len * s < 0.
Proof.
  intros Hrho Hlen Hs.
  assert (Hp : 0 < rho * 9.81 * len) by (apply Rmult_lt_0_compat; lra).
  rewrite <- (Rmult_0_r (rho * 9.81 * len)).
  apply Rmult_lt_compat_l; assumption.
Qed.

Lemma quotient_linear (a q b den : R) :
  den <> 0 -> (a * q * b) / den = (a * b) / den * q.
Proof. intros Hden. field. assumption. Qed.

Lemma quotient_linear3 (k a q b den : R) :
  den <> 0 -> (k * a * q * b) / den = (k * a * b) / den * q.
Proof. intros Hden. field. assumption. Qed.

(** The load at which a drop [(l + v) * q + grav] reaches [cap]. *)
Lemma threshold_algebra (l v cap grav q : R) :
  0 < l + v ->
  (cap >= l * q + v * q + grav <-> q <= (cap - grav) / (l + v))
  /\ (q = (cap - grav) / (l + v) -> l * q + v * q + grav = cap).
Proof.
  intros Hlv.
  assert (Hne : l + v <> 0) by lra.
  assert (E : cap - grav = (cap - grav) / (l + v) * (l + v)) by (field; assumption).
  set (t := (cap - grav) / (l + v)) in *.
  split; [ split | ].
  - intros Hge. apply Rmult_le_reg_r with (l + v); [ assumption | ]. lra.
  - intros Hle.
    assert (q * (l + v) <= t * (l + v))
      by (apply Rmult_le_compat_r; lra).
    lra.
  - intros ->. lra.
Qed.

Lemma frac_mono (n1 n2 d1 d2 : R) :
  0 <= n1 <= n2 -> 0 < d2 <= d1 -> n1 / d1 <= n2 / d2.
Proof.
  intros [Hn0 Hn] [Hd0 Hd].
  assert (Hd1 : 0 < d1) by lra.
  apply Rle_trans with (n2 / d1).
  - apply Rmult_le_compat_r; [ left; apply Rinv_0_lt_compat; assumption | assumption ].
  - apply Rmult_le_compat_l; [ lra | ].
    apply Rinv_le_contravar; assumption.
Qed.

Lemma cube_mono (x y : R) : 0 <= x <= y -> x ^ 3 <= y ^ 3.
Proof. intros H. apply pow_incr. exact H. Qed.

Lemma square_mono (x y : R) : 0 <= x <= y -> x ^ 2 <= y ^ 2.
Proof. intros H. apply pow_incr. exact H. Qed.

(** Lower bound of the permeability formula (lines 71-72) for a porosity in
    the unit interval. *)
Lemma permeability_lower (dw e e0 u0 : R) :
  0 < e0 <= e -> 0 < 1 - e <= u0 ->
  dw ^ 2 * e0 ^ 3 / (122 * u0 ^ 2) <= dw ^ 2 * e ^ 3 / (122 * (1 - e) ^ 2).
Proof.
  intros [He0 He] [Hu0 Hu].
  assert (Hdw : 0 <= dw ^ 2) by apply pow2_ge_0.
  assert (Hc := cube_mono e0 e (conj (Rlt_le _ _ He0) He)).
  assert (Hs := square_mono (1 - e) u0 (conj (Rlt_le _ _ Hu0) Hu)).
  assert (He03 : 0 < e0 ^ 3) by (apply pow_lt; assumption).
  assert (Hu2 : 0 < (1 - e) ^ 2) by (apply pow_lt; assumption).
  apply frac_mono.
  - split.
    + apply Rmult_le_pos; lra.
    + apply Rmult_le_compat_l; assumption.
  - split; lra.
Qed.

(** A negative porosity gives a negative permeability, bounded below. *)
Lemma permeability_negative (dw e w0 u0 : R) :
  dw <> 0 -> e < 0 -> - e <= w0 -> 0 < u0 <= 1 - e ->
  - (dw ^ 2 * w0 ^ 3 / (122 * u0 ^ 2))
    <= dw ^ 2 * e ^ 3 / (122 * (1 - e) ^ 2) < 0.
Proof.
  intros Hdw He Hw [Hu0 Hu].
  assert (Hdw2 : 0 < dw ^ 2).
  { replace (dw ^ 2) with (dw * dw) by ring.
    destruct (Rtotal_order dw 0) as [N | [Z | P]]; [ | contradiction | ].
    - replace (dw * dw) with ((- dw) * (- dw)) by ring.
      apply Rmult_lt_0_compat; lra.
    - apply Rmult_lt_0_compat; lra. }
  assert (Hc := cube_mono (- e) w0 (conj (Rlt_le _ _ (Ropp_0_gt_lt_contravar _ He)) Hw)).
  assert (Hs := square_mono u0 (1 - e) (conj (Rlt_le _ _ Hu0) Hu)).
  assert (Hu2 : 0 < u0 ^ 2) by (apply pow_lt; assumption).
  assert (Hne3 : 0 < (- e) ^ 3) by (apply pow_lt; lra).
  assert (Eq : dw ^ 2 * e ^ 3 / (122 * (1 - e) ^ 2)
               = - (dw ^ 2 * (- e) ^ 3 / (122 * (1 - e) ^ 2))).
  { field. lra. }
  rewrite Eq. split.
  - apply Ropp_le_contravar. apply frac_mono.
    + split.
      * apply Rmult_le_pos; lra.
      * apply Rmult_le_compat_l; lra.
    + split; lra.
  - apply Ropp_lt_gt_0_contravar, Rlt_gt.
    apply Rdiv_lt_0_compat; [ apply Rmult_lt_0_compat; assumption | lra ].
Qed.

Lemma quotient_antitone (a x y : R) : 0 < a -> 0 < x <= y -> a / y <= a / x.
Proof.
  intros Ha [Hx Hxy]. apply Rmult_le_compat_l; [ lra | ].
  apply Rinv_le_contravar; assumption.
Qed.

Lemma liquid_drop_bounds (a r A K h k : R) :
  0 < a -> 0 < r -> 0 < A -> 0 < h -> 0 < k <= K ->
  0 < a / (r * A * K * h) <= a / (r * A * k * h).
Proof.
  intros Ha Hr HA Hh [Hk HkK].
  assert (HK : 0 < K) by lra.
  assert (HrA : 0 < r * A) by (apply Rmult_lt_0_compat; assumption).
  split.
  - apply Rdiv_lt_0_compat; [ assumption | ].
    repeat apply Rmult_lt_0_compat; assumption.
  - apply quotient_antitone; [ assumption | split ].
    + repeat apply Rmult_lt_0_compat; assumption.
    + apply Rmult_le_compat_r; [ lra | ].
      apply Rmult_le_compat_l; lra.
Qed.

(** The divisor of line 113 when the evaporator permeability is negative and
    small. *)
Lemma Q_max_divisor_negative (a r h Ac Ae Kc Ke v kc ke : R) :
  0 < a -> 0 < r -> 0 < h -> 0 < Ac -> 0 < Ae ->
  0 < kc -> kc <= Kc -> 0 < ke -> - ke <= Ke -> Ke < 0 ->
  a / (r * Ac * kc * h) + v < a / (r * Ae * ke * h) ->
  a / (r * Ac * Kc * h) + a / (r * Ae * Ke * h) + v < 0.
Proof.
  intros Ha Hr Hh HAc HAe Hkc HKc Hke HKe HKe0 Hlt.
  assert (Pc : 0 < r * Ac) by (apply Rmult_lt_0_compat; assumption).
  assert (Pe : 0 < r * Ae) by (apply Rmult_lt_0_compat; assumption).
  assert (H1 : a / (r * Ac * Kc * h) <= a / (r * Ac * kc * h)).
  { apply quotient_antitone; [ assumption | split ].
    - repeat apply Rmult_lt_0_compat; assumption.
    - apply Rmult_le_compat_r; [ lra | ].
      apply Rmult_le_compat_l; lra. }
  assert (H2 : a / (r * Ae * Ke * h) <= - (a / (r * Ae * ke * h))).
  { assert (Eq : a / (r * Ae * Ke * h) = - (a / (r * Ae * (- Ke) * h))).
    { field. repeat split; lra. }
    rewrite Eq. apply Ropp_le_contravar.
    apply quotient_antitone; [ assumption | split ].
    - repeat apply Rmult_lt_0_compat; lra.
    - apply Rmult_le_compat_r; [ lra | ].
      apply Rmult_le_compat_l; lra. }
  lra.
Qed.

(** ** Runs of [derive] *)

(** A run that returns satisfies every assignment of the script. *)
Lemma derive_assignments (c : Configuration) (d : Derived) :
  derive c = Ok d -> assignments c d.
Proof.
  intros H. derive_inv H. constructor; reflexivity.
Qed.

(** A valid configuration raises nothing. *)
Lemma derive_valid (c : Configuration) :
  valid_config c -> exists d, derive c = Ok d.
Proof.
  intros [Hlen Hwid Htv Hel Hew Hks Hme Hde Hne Hmc Hdc Hnc
           Hrl Hrv Hml Hmv Hh Hkl Hpe Hpc HA].
  unfold porosity in *.
  assert (Hin : 0 < in_to_m) by (unfold in_to_m; lra).
  assert (Hcv : 0 < C_vapor) by (unfold C_vapor; lra).
  assert (Nume := k_wick_num_pos _ _ _ Hks Hkl Hpe).
  assert (Numc := k_wick_num_pos _ _ _ Hks Hkl Hpc).
  assert (Dene := k_wick_den_pos _ _ _ Hks Hkl Hpe).
  assert (Denc := k_wick_den_pos _ _ _ Hks Hkl Hpc).
  destruct Hpe as [He0 He1], Hpc as [Hc0 Hc1].
  unfold derive. cbv zeta.
  do 18 step.
  eexists. reflexivity.
Qed.

(** On a valid configuration every divisor is strictly positive. *)
Lemma valid_positive_divisors (c : Configuration) (d : Derived) :
  valid_config c -> derive c = Ok d ->
  positive_divisors c d
  /\ 0 < epsilon_evap d < 1 /\ 0 < epsilon_cond d < 1.
Proof.
  intros [Hlen Hwid Htv Hel Hew Hks Hme Hde Hne Hmc Hdc Hnc
           Hrl Hrv Hml Hmv Hh Hkl Hpe Hpc HA] H.
  derive_inv H. clear_nz.
  unfold porosity in *.
  assert (Hin : 0 < in_to_m) by (unfold in_to_m; lra).
  assert (Hcv : 0 < C_vapor) by (unfold C_vapor; lra).
  assert (Nume := k_wick_num_pos _ _ _ Hks Hkl Hpe).
  assert (Numc := k_wick_num_pos _ _ _ Hks Hkl Hpc).
  assert (Dene := k_wick_den_pos _ _ _ Hks Hkl Hpe).
  assert (Denc := k_wick_den_pos _ _ _ Hks Hkl Hpc).
  split; [ | split; cbn; assumption ].
  destruct Hpe as [He0 He1], Hpc as [Hc0 Hc1].
  constructor; cbn; pos.
Qed.

(** The divisors of lines 99-113 met by a run that returns. *)
Lemma pressure_divisors_nonzero (c : Configuration) (d : Derived) :
  derive c = Ok d ->
  rc_eff d <> 0
  /\ rho_l c * A_wick_cond d * K_cond d * h_fg c <> 0
  /\ rho_l c * A_wick_evap d * K_evap d * h_fg c <> 0
  /\ 2 * rho_v c * A_vapor d * d_h_vapor d ^ 2 * h_fg c <> 0
  /\ liquid_pressure_term d + vapor_pressure_term d <> 0.
Proof.
  intros H. derive_inv H. cbn.
  repeat split; assumption.
Qed.

(** The heat load enters no divisor: a run that succeeds for one load succeeds
    for every load, and only the numerators of the liquid and vapor drops
    change. *)
Lemma derive_with_Q_in (c : Configuration) (d : Derived) (q : R) :
  derive c = Ok d ->
  exists dq,
    derive (with_Q_in c q) = Ok dq
    /\ L_eff dq = L_eff d
    /\ A_wick_cond dq = A_wick_cond d /\ K_cond dq = K_cond d
    /\ A_wick_evap dq = A_wick_evap d /\ K_evap dq = K_evap d
    /\ A_vapor dq = A_vapor d /\ d_h_vapor dq = d_h_vapor d
    /\ dP_cap dq = dP_cap d /\ dP_g dq = dP_g d
    /\ vapor_pressure_term dq = vapor_pressure_term d
    /\ liquid_pressure_term dq = liquid_pressure_term d
    /\ Q_max dq = Q_max d.
Proof.
  intros H. derive_inv H.
  unfold derive. cbv zeta.
  cbn [with_Q_in T_op Q_in phi_deg filling_ratio target_vacuum_Pa
       experimental_correction_factor vc_length vc_width t_evap_wall
       t_cond_wall t_vapor evap_length evap_width k_shell
       mesh_number_evap_wpi d_w_evap num_layers_evap mesh_number_cond_wpi
       d_w_cond num_layers_cond rho_l rho_v mu_l mu_v sigma h_fg k_l
       theta_deg].
  do 18 (rewrite bind_div_at_ok by assumption; cbv beta).
  eexists. split; [ reflexivity | ]. cbn.
  repeat split; reflexivity.
Qed.

(** The pressure terms at the load [q], in terms of the run at the load of
    the configuration. *)
Lemma drops_at_load (c : Configuration) (d : Derived) (q : R) (dq : Derived) :
  derive c = Ok d ->
  derive (with_Q_in c q) = Ok dq ->
  dP_l dq = liquid_pressure_term d * q
  /\ dP_v dq = vapor_pressure_term d * q
  /\ dP_cap dq = dP_cap d
  /\ dP_g dq = dP_g d
  /\ Q_max dq = Q_max d
  /\ dP_total dq =
       liquid_pressure_term d * q + vapor_pressure_term d * q + dP_g d.
Proof.
  intros H Hdq.
  destruct (derive_with_Q_in c d q H)
    as (dq' & Hdq' & EL & EAc & EKc & EAe & EKe & EAv & Edh
        & Ecap & Eg & _ & _ & Eqm).
  rewrite Hdq in Hdq'. injection Hdq' as <-.
  destruct (pressure_divisors_nonzero c d H) as (_ & Nc & Ne & Nv & _).
  assert (A := derive_assignments c d H).
  assert (A' := derive_assignments _ _ Hdq).
  assert (Elc := as_dP_l_cond _ _ A'). assert (Ele := as_dP_l_evap _ _ A').
  assert (Ev := as_dP_v _ _ A').
  cbn [with_Q_in Q_in mu_l mu_v rho_l rho_v h_fg] in Elc, Ele, Ev.
  rewrite EL, EAc, EKc in Elc. rewrite EL, EAe, EKe in Ele.
  rewrite EL, EAv, Edh in Ev.
  assert (Xl : dP_l dq = liquid_pressure_term d * q).
  { rewrite (as_dP_l _ _ A'), Elc, Ele, (as_liquid_pressure_term _ _ A).
    rewrite !quotient_linear by assumption. ring. }
  assert (Xv : dP_v dq = vapor_pressure_term d * q).
  { rewrite Ev, (as_vapor_pressure_term _ _ A).
    rewrite quotient_linear3 by assumption. reflexivity. }
  repeat split; try assumption.
  rewrite (as_dP_total _ _ A'), Xl, Xv, Eg. reflexivity.
Qed.

(** A wick without layers: the run raises no later than line 101. *)
Lemma layers_zero_raises (c : Configuration) :
  num_layers_evap c = 0%Z \/ num_layers_cond c = 0%Z ->
  raises_by 101 (derive c).
Proof.
  intros Hz. unfold derive. cbv zeta.
  do 5 raise_or_step.
  destruct Hz as [Hz | Hz].
  - raise_or_step.
    rewrite bind_div_at_zero; [ cbn; lia | rewrite Hz; ring ].
  - rewrite bind_div_at_zero; [ cbn; lia | rewrite Hz; ring ].
Qed.

(** A porosity of 1: the run raises no later than line 72. *)
Lemma porosity_one_raises (c : Configuration) :
  porosity (mesh_number_evap_wpi c) (d_w_evap c) = 1
  \/ porosity (mesh_number_cond_wpi c) (d_w_cond c) = 1 ->
  raises_by 72 (derive c).
Proof.
  unfold porosity. intros H. unfold derive. cbv zeta.
  raise_or_step.
  destruct H as [H | H].
  - rewrite bind_div_at_zero; [ cbn; lia | rewrite H; ring ].
  - raise_or_step.
    rewrite bind_div_at_zero; [ cbn; lia | rewrite H; ring ].
Qed.

(** ** The shipped configuration and its variants *)

(** The shipped configuration is valid. *)
Lemma default_valid : valid_config default_config.
Proof.
  assert (Hpi := PI_RGT_0). assert (Hpi4 := PI_4).
  constructor; simpl; unfold porosity, in_to_m; try lra; try reflexivity.
Qed.

Lemma default_derive_ok : exists d, derive default_config = Ok d.
Proof. exact (derive_valid default_config default_valid). Qed.

(** Bounds of the reported quantities, from [3 < PI <= 4]. *)
Lemma default_numbers (d : Derived) :
  derive default_config = Ok d ->
  0 < liquid_charge_volume_mL d < 6
  /\ 2000 < dP_cap d < 2100
  /\ 0 < dP_l d < 820
  /\ 0 < dP_v d < 3
  /\ dP_g d = 0
  /\ 0 < dP_total d < 823
  /\ 0 < liquid_pressure_term d
  /\ 0.013 < vapor_pressure_term d
  /\ 0 < Q_max d < 162000
  /\ 0 < R_total_ideal d < 3
  /\ 0 < R_total_corrected d < 4
  /\ 0 < delta_T d < 600.
Proof.
  intros Hd.
  assert (Hpi := PI_RGT_0). assert (Hpi4 := PI_4).
  destruct (valid_positive_divisors _ _ default_valid Hd) as (Hpd & Bee & Bec).
  destruct (derive_assignments _ _ Hd)
    as [Eme Emc Etew Etcw Eee Eec Erc EKe EKc EL Eia Evv Evew Evcw Evit Elcv
        EAe EAc EAwe EAwc EAv Edh Ephi Eth Ecap Elc Ele El Ev Eg Et Evt Elt
        Eq Ekwe Ekwc ERew EReW ERpc ERcW ERcw ERi ERc EdT].
  cbn [default_config
       T_op Q_in phi_deg filling_ratio target_vacuum_Pa
       experimental_correction_factor vc_length vc_width t_evap_wall
       t_cond_wall t_vapor evap_length evap_width k_shell
       mesh_number_evap_wpi d_w_evap num_layers_evap mesh_number_cond_wpi
       d_w_cond num_layers_cond rho_l rho_v mu_l mu_v sigma h_fg k_l
       theta_deg] in *.
  unfold in_to_m, C_vapor, g in *.
  rewrite Eme in Eee, Erc. rewrite Emc in Eec.
  assert (Bee' : 0 < 0.5 <= epsilon_evap d) by (rewrite Eee; lra).
  assert (Uee : 0 < 1 - epsilon_evap d <= 0.5) by (rewrite Eee; lra).
  assert (Bec' : 0 < 0.5 <= epsilon_cond d) by (rewrite Eec; lra).
  assert (Uec : 0 < 1 - epsilon_cond d <= 0.5) by (rewrite Eec; lra).
  assert (LKe := permeability_lower 0.000051 _ _ _ Bee' Uee).
  assert (LKc := permeability_lower 0.00015 _ _ _ Bec' Uec).
  rewrite <- EKe in LKe. rewrite <- EKc in LKc.
  rewrite Etew in EAwe, Evew, EReW. rewrite Etcw in EAwc, Evcw, ERcW.
  rewrite EAwe in Ele. rewrite EAwc in Elc. rewrite EL in Elc, Ele, Ev, Eg.
  rewrite EAv, Edh in Ev.
  (* charge volume *)
  assert (Hlcv : 0 < liquid_charge_volume_mL d < 6).
  { rewrite Elcv, Evit, Evv, Evew, Evcw, Eia. clear - Bee Bec Bee' Bec'.
    destruct Bee, Bec. split; nra. }
  (* capillary pressure *)
  assert (Hcap : 2000 < dP_cap d < 2100).
  { rewrite Ecap, Eth, Erc. unfold radians. rewrite Rmult_0_l, cos_0.
    clear. split; lra. }
  (* gravity *)
  assert (Hg : dP_g d = 0).
  { rewrite Eg, Ephi. unfold radians. rewrite Rmult_0_l, sin_0. ring. }
  (* liquid drop *)
  assert (Hlc : 0 < dP_l_cond d <= 31).
  { rewrite Elc.
    destruct (liquid_drop_bounds (4.04e-4 * 150 * ((0.070 + 0.020) / 4 / 2))
                977.8 (2 * 0.00015 * 5 * 0.070) (K_cond d) 2.33e6
                (0.00015 ^ 2 * 0.5 ^ 3 / (122 * 0.5 ^ 2)))
      as [P U]; lra. }
  assert (Hle : 0 < dP_l_evap d <= 787).
  { rewrite Ele.
    destruct (liquid_drop_bounds (4.04e-4 * 150 * ((0.070 + 0.020) / 4 / 2))
                977.8 (2 * 0.000051 * 5 * 0.070) (K_evap d) 2.33e6
                (0.000051 ^ 2 * 0.5 ^ 3 / (122 * 0.5 ^ 2)))
      as [P U]; lra. }
  assert (Hl : 0 < dP_l d < 820) by (rewrite El; lra).
  assert (Hv : 0 < dP_v d < 3) by (rewrite Ev; clear; split; lra).
  assert (Ht : 0 < dP_total d < 823) by (rewrite Et, Hg; lra).
  (* maximum heat transport *)
  assert (Hvt : 0.013 < vapor_pressure_term d).
  { rewrite Evt, EL, EAv, Edh. clear. lra. }
  assert (Hlt : 0 < liquid_pressure_term d).
  { rewrite Elt. destruct Hpd. apply Rplus_lt_0_compat.
    - apply Rdiv_lt_0_compat; [ rewrite EL; lra | assumption ].
    - apply Rdiv_lt_0_compat; [ rewrite EL; lra | assumption ]. }
  assert (Hq : 0 < Q_max d < 162000).
  { rewrite Eq, Hg, Rminus_0_r.
    assert (HS : 0 < 0.013 <= liquid_pressure_term d + vapor_pressure_term d)
      by lra.
    assert (U := quotient_antitone (dP_cap d) _ _ ltac:(lra) HS).
    split.
    - apply Rdiv_lt_0_compat; lra.
    - eapply Rle_lt_trans; [ exact U | ].
      apply Rmult_lt_reg_r with 0.013; [ lra | ].
      unfold Rdiv. rewrite Rmult_assoc, Rinv_l by lra. lra. }
  (* resistances *)
  rewrite EAe in EAc, ERew, EReW. rewrite EAc in ERcW, ERcw.
  assert (Hke : 0.668 <= k_wick_evap d).
  { rewrite Ekwe.
    assert (G := k_wick_ratio_ge_1 380 0.668 (epsilon_evap d)
                   ltac:(lra) ltac:(lra) Bee ltac:(lra)).
    lra. }
  assert (Hkc : 0.668 <= k_wick_cond d).
  { rewrite Ekwc.
    assert (G := k_wick_ratio_ge_1 380 0.668 (epsilon_cond d)
                   ltac:(lra) ltac:(lra) Bec ltac:(lra)).
    lra. }
  assert (HRew : 0 < R_evap_wall d < 0.015) by (rewrite ERew; clear; split; lra).
  assert (HRcw : 0 < R_cond_wall d < 0.002) by (rewrite ERcw; clear; split; lra).
  assert (HReW : 0 < R_evap_wick d < 2).
  { rewrite EReW.
    assert (HS : 0 < 0.668 * (0.020 * 0.020)
                 <= k_wick_evap d * (0.020 * 0.020)) by lra.
    assert (U := quotient_antitone (2 * 0.000051 * 5) _ _ ltac:(lra) HS).
    split.
    - apply Rdiv_lt_0_compat; lra.
    - eapply Rle_lt_trans; [ exact U | ]. clear. lra. }
  assert (HRcW : 0 < R_cond_wick d < 0.5).
  { rewrite ERcW.
    assert (HS : 0 < 0.668 * (0.070 * 0.070 - 0.020 * 0.020)
                 <= k_wick_cond d * (0.070 * 0.070 - 0.020 * 0.020)) by lra.
    assert (U := quotient_antitone (2 * 0.00015 * 5) _ _ ltac:(lra) HS).
    split.
    - apply Rdiv_lt_0_compat; lra.
    - eapply Rle_lt_trans; [ exact U | ]. clear. lra. }
  assert (HRi : 0 < R_total_ideal d < 3) by (rewrite ERi, ERpc; lra).
  assert (HRc : 0 < R_total_corrected d < 4) by (rewrite ERc; lra).
  assert (HdT : 0 < delta_T d < 600) by (rewrite EdT; lra).
  repeat split; first [ assumption | apply Hlcv | apply Hcap | apply Hl
                      | apply Hv | apply Ht | apply Hq | apply HRi
                      | apply HRc | apply HdT ].
Qed.

(** Under 200 kW the vapor drop alone exceeds the capillary pressure. *)
Lemma overload_numbers :
  exists d, derive overload_config = Ok d /\ dP_cap d < dP_total d.
Proof.
  destruct default_derive_ok as [d0 Hd0].
  destruct (default_numbers d0 Hd0)
    as (_ & Ncap & _ & _ & Ng & _ & Nlt & Nvt & _).
  destruct (derive_with_Q_in default_config d0 200000 Hd0) as (d & Hd & _).
  exists d. split; [ exact Hd | ].
  destruct (drops_at_load default_config d0 200000 d Hd0 Hd)
    as (_ & _ & Ecap & _ & _ & Et).
  rewrite Ecap, Et, Ng. nra.
Qed.

(** The 180 um evaporator wire: the porosity is negative and nothing raises. *)
Lemma thick_evap_wire_derive :
  exists d, derive thick_evap_wire_config = Ok d
            /\ epsilon_evap d = porosity 200 0.00018.
Proof.
  assert (Hpi3 := PI2_3_2). assert (Hpi4 := PI_4).
  unfold derive. cbv zeta.
  cbn [thick_evap_wire_config with_evap_wick default_config
       T_op Q_in phi_deg filling_ratio target_vacuum_Pa
       experimental_correction_factor vc_length vc_width t_evap_wall
       t_cond_wall t_vapor evap_length evap_width k_shell
       mesh_number_evap_wpi d_w_evap num_layers_evap mesh_number_cond_wpi
       d_w_cond num_layers_cond rho_l rho_v mu_l mu_v sigma h_fg k_l
       theta_deg].
  unfold in_to_m, C_vapor.
  do 11 step_nz.
  rewrite bind_div_at_ok; [ cbv beta | ].
  2:{ apply Rlt_not_eq.
      assert (Bc : 0 < 0.5 <= 1 - PI * (80 / 0.0254) * 0.00015 / 4) by lra.
      assert (Uc : 0 < 1 - (1 - PI * (80 / 0.0254) * 0.00015 / 4) <= 0.5)
        by lra.
      assert (Kc := permeability_lower 0.00015 _ _ _ Bc Uc).
      assert (Dw : 0.00018 <> 0) by lra.
      assert (Ee : 1 - PI * (200 / 0.0254) * 0.00018 / 4 < 0) by lra.
      assert (We : - (1 - PI * (200 / 0.0254) * 0.00018 / 4) <= 0.42) by lra.
      assert (Ue : 0 < 1 <= 1 - (1 - PI * (200 / 0.0254) * 0.00018 / 4))
        by lra.
      destruct (permeability_negative 0.00018 _ _ _ Dw Ee We Ue) as [Ke Ke0].
      refine (Q_max_divisor_negative _ _ _ _ _ _ _ _ _ _
                _ _ _ _ _ _ Kc _ Ke Ke0 _); lra. }
  do 6 step_nz.
  eexists. split; reflexivity.
Qed.

(** ** Properties of a run that returns *)

(** C4: the ideal total resistance is the sum of the five series resistances
    (evaporator wall, evaporator wick, the phase-change constant 0.01 K/W,
    condenser wick, condenser wall), each given by its formula of lines
    123-127, and the corrected total is the ideal total times the
    experimental correction factor. *)
Theorem R_total_is_series_sum (c : Configuration) (d : Derived) :
  derive c = Ok d ->
  R_total_ideal d =
    R_evap_wall d + R_evap_wick d + R_phase_change d
    + R_cond_wick d + R_cond_wall d
  /\ R_phase_change d = 0.01
  /\ R_total_corrected d = R_total_ideal d * experimental_correction_factor c
  /\ R_evap_wall d = t_evap_wall c / (k_shell c * A_evap d)
  /\ R_evap_wick d = t_evap_wick d / (k_wick_evap d * A_evap d)
  /\ R_cond_wick d = t_cond_wick d / (k_wick_cond d * A_cond d)
  /\ R_cond_wall d = t_cond_wall c / (k_shell c * A_cond d).
Proof.
  intros Hrun. destruct (derive_assignments c d Hrun).
  repeat split; assumption.
Qed.

(** C5: the total pressure drop is the sum of the liquid, vapor and
    gravitational drops and of nothing else; the liquid drop is itself the sum
    of the condenser and evaporator contributions. *)
Theorem dP_total_is_sum (c : Configuration) (d : Derived) :
  derive c = Ok d ->
  dP_total d = dP_l d + dP_v d + dP_g d
  /\ dP_l d = dP_l_cond d + dP_l_evap d.
Proof.
  intros Hrun. destruct (derive_assignments c d Hrun).
  split; assumption.
Qed.

(** C7: the gravitational drop is [rho_l * g * L_eff * sin(phi)] with
    [g = 9.81] and [phi] the orientation angle converted to radians; it is
    [0] when the angle is [0]; and it enters the total drop as it is,
    whatever its sign: a negative drop lowers the total. *)
Theorem dP_g_formula (c : Configuration) (d : Derived) :
  derive c = Ok d ->
  phi d = radians (phi_deg c)
  /\ dP_g d = rho_l c * 9.81 * L_eff d * sin (phi d)
  /\ (phi_deg c = 0 -> dP_g d = 0)
  /\ dP_total d = dP_l d + dP_v d + dP_g d
  /\ (0 < rho_l c -> 0 < L_eff d -> sin (phi d) < 0 ->
      dP_g d < 0 /\ dP_total d < dP_l d + dP_v d).
Proof.
  intros Hrun.
  destruct (derive_assignments c d Hrun)
    as [_ _ _ _ _ _ _ _ _ _ _ _ _ _ _ _ _ _ _ _ _ _ Ephi _ _ _ _ _ _ Eg Et
        _ _ _ _ _ _ _ _ _ _ _ _ _].
  unfold g in Eg.
  split; [ exact Ephi | ]. split; [ exact Eg | ].
  split.
  { intros E. rewrite Eg, Ephi, E. unfold radians.
    rewrite Rmult_0_l, sin_0. ring. }
  split; [ exact Et | ].
  intros Hrho HL Hsin.
  assert (Hneg : dP_g d < 0)
    by (rewrite Eg; apply gravity_drop_neg; assumption).
  split; [ exact Hneg | ].
  rewrite Et. apply add_neg_lt. exact Hneg.
Qed.

(** C2: the verdict is MET exactly when [dP_cap >= dP_total], a tie included;
    the MET line names the requested [Q_in]; otherwise the verdict is FAILED
    and the line that follows names [Q_max] as the limit of the design.  The
    verdict lines are printed between lines 154 and 160 of the summary. *)
Theorem verdict_met_iff (c : Configuration) (d : Derived) (out : stdout) :
  derive c = Ok d ->
  vapor_chamber_model c out =
    (out ++ summary_head c d ++ verdict_lines c d ++ summary_tail c d, Ok tt)
  /\ (capillary_limit_met d = true <-> dP_cap d >= dP_total d)
  /\ (dP_cap d = dP_total d -> capillary_limit_met d = true)
  /\ (dP_cap d >= dP_total d ->
      verdict_lines c d =
        [ [Lit "YES! CAPILLARY LIMIT: MET for the specified heat load (";
           Num (Q_in c) 1; Lit " W)."] ]%string)
  /\ (~ dP_cap d >= dP_total d ->
      verdict_lines c d =
        [ [Lit "NO! CAPILLARY LIMIT: FAILED. Wick cannot sustain the required flow."];
          [Lit "   The design is limited to Q_max = "; Num (Q_max d) 1;
           Lit " W under these conditions."] ]%string).
Proof.
  intros Hrun.
  unfold vapor_chamber_model, results_summary. rewrite Hrun.
  unfold verdict_lines, capillary_limit_met.
  destruct (Rge_dec (dP_cap d) (dP_total d)) as [G | G].
  - repeat split; try reflexivity; try (intros; assumption).
    intros N. contradiction.
  - repeat split; try reflexivity.
    + intros E. discriminate E.
    + intros E. exfalso. apply G. rewrite E. apply Rge_refl.
    + intros E. exfalso. apply G. rewrite E. apply Rge_refl.
    + intros E. contradiction.
Qed.

Lemma R_total_is_series_sum_default :
  exists d, derive default_config = Ok d
  /\ R_total_ideal d =
       R_evap_wall d + R_evap_wick d + R_phase_change d
       + R_cond_wick d + R_cond_wall d
  /\ R_phase_change d = 0.01
  /\ R_total_corrected d =
       R_total_ideal d * experimental_correction_factor default_config.
Proof.
  destruct default_derive_ok as [d Hd]. exists d.
  destruct (R_total_is_series_sum default_config d Hd) as (H1 & H2 & H3 & _).
  repeat split; assumption.
Defined.

Lemma dP_total_is_sum_default :
  exists d, derive default_config = Ok d
  /\ dP_total d = dP_l d + dP_v d + dP_g d
  /\ dP_l d = dP_l_cond d + dP_l_evap d.
Proof.
  destruct default_derive_ok as [d Hd]. exists d.
  split; [ exact Hd | exact (dP_total_is_sum default_config d Hd) ].
Defined.

Lemma dP_g_formula_horizontal_and_tilted :
  (exists d, derive default_config = Ok d
     /\ dP_g d = rho_l default_config * 9.81 * L_eff d * sin (phi d)
     /\ dP_g d = 0)
  /\ (exists d, derive (with_phi_deg default_config (-90)) = Ok d
        /\ dP_g d < 0
        /\ dP_total d < dP_l d + dP_v d).
Proof.
  split.
  - destruct default_derive_ok as [d Hd]. exists d.
    destruct (dP_g_formula default_config d Hd) as (_ & H1 & H2 & _).
    repeat split; try assumption. apply H2. reflexivity.
  - assert (V : valid_config (with_phi_deg default_config (-90))).
    { assert (Hpi := PI_RGT_0). assert (Hpi4 := PI_4).
      constructor; simpl; unfold porosity, in_to_m; try lra; try reflexivity. }
    destruct (derive_valid _ V) as [d Hd]. exists d.
    split; [ exact Hd | ].
    destruct (dP_g_formula _ d Hd) as (Ephi & _ & _ & _ & Hneg).
    assert (A := derive_assignments _ _ Hd).
    apply Hneg.
    + simpl. lra.
    + rewrite (as_L_eff _ _ A). simpl. lra.
    + rewrite Ephi. cbn [with_phi_deg phi_deg]. unfold radians.
      replace (-90 * (PI / 180)) with (- (PI / 2)) by field.
      rewrite sin_neg, sin_PI2. lra.
Defined.

Lemma verdict_met_iff_default_and_overload :
  (exists d, derive default_config = Ok d
     /\ dP_cap d >= dP_total d
     /\ verdict_lines default_config d =
          [ [Lit "YES! CAPILLARY LIMIT: MET for the specified heat load (";
             Num 150 1; Lit " W)."] ]%string)
  /\ (exists d, derive overload_config = Ok d
        /\ ~ dP_cap d >= dP_total d
        /\ verdict_lines overload_config d =
             [ [Lit "NO! CAPILLARY LIMIT: FAILED. Wick cannot sustain the required flow."];
               [Lit "   The design is limited to Q_max = "; Num (Q_max d) 1;
                Lit " W under these conditions."] ]%string).
Proof.
  split.
  - destruct default_derive_ok as [d Hd]. exists d.
    assert (G : dP_cap d >= dP_total d).
    { destruct (default_numbers d Hd) as (_ & Ncap & _ & _ & _ & Nt & _).
      apply Rle_ge. lra. }
    destruct (verdict_met_iff default_config d [] Hd) as (_ & _ & _ & Hm & _).
    split; [ exact Hd | ]. split; [ exact G | ]. exact (Hm G).
  - destruct overload_numbers as (d & Hd & Hlt). exists d.
    assert (G : ~ dP_cap d >= dP_total d) by (intros G; lra).
    destruct (verdict_met_iff overload_config d [] Hd) as (_ & _ & _ & _ & Hf).
    split; [ exact Hd | ]. split; [ exact G | ]. exact (Hf G).
Defined.

(** ** The capillary pump *)

(** C6: the effective pore radius is [1 / (2 * mesh density)] of the
    evaporator mesh, the capillary pressure is [2 sigma cos(theta) / rc_eff],
    and replacing the condenser wick specification by any other changes
    neither of them. *)
Theorem rc_eff_from_evaporator_only
        (c : Configuration) (d : Derived)
        (wpi d_w : R) (layers : Z) (d' : Derived) :
  derive c = Ok d ->
  derive (with_cond_wick c wpi d_w layers) = Ok d' ->
  mesh_number_evap d = mesh_number_evap_wpi c / in_to_m
  /\ rc_eff d = 1 / (2 * mesh_number_evap d)
  /\ dP_cap d = (2 * sigma c * cos (radians (theta_deg c))) / rc_eff d
  /\ rc_eff d' = rc_eff d
  /\ dP_cap d' = dP_cap d.
Proof.
  intros H H'.
  destruct (derive_assignments _ _ H)
    as [Eme _ _ _ _ _ Erc _ _ _ _ _ _ _ _ _ _ _ _ _ _ _ _ Eth Ecap
        _ _ _ _ _ _ _ _ _ _ _ _ _ _ _ _ _ _ _].
  destruct (derive_assignments _ _ H')
    as [Eme' _ _ _ _ _ Erc' _ _ _ _ _ _ _ _ _ _ _ _ _ _ _ _ Eth' Ecap'
        _ _ _ _ _ _ _ _ _ _ _ _ _ _ _ _ _ _ _].
  cbn [with_cond_wick mesh_number_evap_wpi sigma theta_deg] in *.
  assert (Xrc : rc_eff d' = rc_eff d) by (rewrite Erc', Erc, Eme', Eme; reflexivity).
  split; [ exact Eme | ]. split; [ exact Erc | ].
  split; [ rewrite Ecap, Eth; reflexivity | ].
  split; [ exact Xrc | ].
  rewrite Ecap', Ecap, Eth', Eth, Xrc. reflexivity.
Qed.

Lemma rc_eff_from_evaporator_only_default :
  exists d d',
    derive default_config = Ok d
    /\ derive (with_cond_wick default_config 100 0.0001 3) = Ok d'
    /\ rc_eff d' = rc_eff d
    /\ dP_cap d' = dP_cap d.
Proof.
  destruct default_derive_ok as [d Hd].
  assert (V : valid_config (with_cond_wick default_config 100 0.0001 3)).
  { assert (Hpi := PI_RGT_0). assert (Hpi4 := PI_4).
    constructor; simpl; unfold porosity, in_to_m; try lra; try reflexivity. }
  destruct (derive_valid _ V) as [d' Hd'].
  exists d, d'.
  destruct (rc_eff_from_evaporator_only default_config d 100 0.0001 3 d' Hd Hd')
    as (_ & _ & _ & H1 & H2).
  repeat split; assumption.
Defined.

(** ** The heat load and the capillary limit *)

(** C1: with positive viscosities, flow length and divisors, the liquid and
    vapor drops are the per-watt terms of lines 110-112 times [Q_in], both
    terms are positive, so both drops increase strictly with [Q_in], while
    [dP_cap], [dP_g] and [Q_max] do not depend on [Q_in];
    [Q_max = (dP_cap - dP_g) / (liquid term + vapor term)]; the verdict is
    MET exactly for the loads [q <= Q_max], and at [q = Q_max] the total drop
    equals [dP_cap]. *)
Theorem pressure_linear_in_Q_in (c : Configuration) (d : Derived) :
  derive c = Ok d ->
  0 < mu_l c -> 0 < mu_v c -> 0 < L_eff d ->
  0 < rho_l c * A_wick_cond d * K_cond d * h_fg c ->
  0 < rho_l c * A_wick_evap d * K_evap d * h_fg c ->
  0 < 2 * rho_v c * A_vapor d * d_h_vapor d ^ 2 * h_fg c ->
  dP_l d = liquid_pressure_term d * Q_in c
  /\ dP_v d = vapor_pressure_term d * Q_in c
  /\ 0 < liquid_pressure_term d
  /\ 0 < vapor_pressure_term d
  /\ Q_max d = (dP_cap d - dP_g d)
               / (liquid_pressure_term d + vapor_pressure_term d)
  /\ (forall q : R, exists dq,
        derive (with_Q_in c q) = Ok dq
        /\ dP_l dq = liquid_pressure_term d * q
        /\ dP_v dq = vapor_pressure_term d * q
        /\ dP_cap dq = dP_cap d
        /\ dP_g dq = dP_g d
        /\ Q_max dq = Q_max d
        /\ (capillary_limit_met dq = true <-> q <= Q_max d)
        /\ (q = Q_max d -> dP_total dq = dP_cap dq))
  /\ (forall (q1 q2 : R) (d1 d2 : Derived),
        derive (with_Q_in c q1) = Ok d1 ->
        derive (with_Q_in c q2) = Ok d2 ->
        q1 < q2 ->
        dP_l d1 < dP_l d2 /\ dP_v d1 < dP_v d2
        /\ dP_cap d1 = dP_cap d2 /\ dP_g d1 = dP_g d2).
Proof.
  intros H Hmul Hmuv HL Hc He Hv.
  assert (Hcv : 0 < C_vapor) by (unfold C_vapor; lra).
  assert (A := derive_assignments c d H).
  assert (Plt : 0 < liquid_pressure_term d)
    by (rewrite (as_liquid_pressure_term _ _ A); pos).
  assert (Pvt : 0 < vapor_pressure_term d)
    by (rewrite (as_vapor_pressure_term _ _ A); pos).
  assert (Hself : with_Q_in c (Q_in c) = c) by (destruct c; reflexivity).
  assert (H0 : derive (with_Q_in c (Q_in c)) = Ok d)
    by (rewrite Hself; exact H).
  destruct (drops_at_load c d _ _ H H0) as (Xl & Xv & _).
  split; [ exact Xl | ]. split; [ exact Xv | ].
  split; [ exact Plt | ]. split; [ exact Pvt | ].
  split; [ exact (as_Q_max _ _ A) | ].
  split.
  - intros q.
    destruct (derive_with_Q_in c d q H) as (dq & Hdq & _).
    exists dq. split; [ exact Hdq | ].
    destruct (drops_at_load c d q dq H Hdq) as (Yl & Yv & Ycap & Yg & Yq & Yt).
    assert (Hpos : 0 < liquid_pressure_term d + vapor_pressure_term d) by lra.
    destruct (threshold_algebra (liquid_pressure_term d)
                (vapor_pressure_term d) (dP_cap d) (dP_g d) q Hpos)
      as [Hiff Heq].
    rewrite <- (as_Q_max _ _ A) in Hiff, Heq.
    repeat split; try assumption.
    + unfold capillary_limit_met.
      destruct (Rge_dec (dP_cap dq) (dP_total dq)) as [G | G].
      * intros _. apply Hiff. rewrite <- Ycap, <- Yt. exact G.
      * intros E. discriminate E.
    + intros Hle. unfold capillary_limit_met.
      destruct (Rge_dec (dP_cap dq) (dP_total dq)) as [G | G].
      * reflexivity.
      * exfalso. apply G. rewrite Ycap, Yt. apply Hiff. exact Hle.
    + intros E. rewrite Yt, Ycap. apply Heq. exact E.
  - intros q1 q2 d1 d2 H1 H2 Hlt.
    destruct (drops_at_load c d q1 d1 H H1) as (Al & Av & Acap & Ag & _).
    destruct (drops_at_load c d q2 d2 H H2) as (Bl & Bv & Bcap & Bg & _).
    rewrite Al, Av, Bl, Bv, Acap, Bcap, Ag, Bg.
    repeat split; try reflexivity; apply Rmult_lt_compat_l; assumption.
Qed.

Lemma pressure_linear_in_Q_in_default :
  exists d, derive default_config = Ok d
  /\ dP_l d = liquid_pressure_term d * 150
  /\ dP_v d = vapor_pressure_term d * 150
  /\ Q_max d = (dP_cap d - dP_g d)
               / (liquid_pressure_term d + vapor_pressure_term d).
Proof.
  destruct default_derive_ok as [d Hd]. exists d.
  destruct (valid_positive_divisors _ _ default_valid Hd) as (Hpd & _).
  assert (HL : 0 < L_eff d)
    by (rewrite (as_L_eff _ _ (derive_assignments _ _ Hd)); simpl; lra).
  assert (Hl : 0 < mu_l default_config) by (simpl; lra).
  assert (Hv : 0 < mu_v default_config) by (simpl; lra).
  destruct (pressure_linear_in_Q_in default_config d Hd Hl Hv HL
              (pd_dP_l_cond _ _ Hpd) (pd_dP_l_evap _ _ Hpd)
              (pd_dP_v _ _ Hpd))
    as (H1 & H2 & _ & _ & H3 & _).
  repeat split; assumption.
Defined.

(** ** The shipped configuration *)

(** C10: on the shipped configuration both porosities lie strictly between 0
    and 1 and every divisor of the script is strictly positive, so no
    division raises: the run completes and prints the report computed from
    the derived state.  The verdict is MET, the gravitational drop is 0, the
    phase-change resistance is 0.01, and every number of the report lies
    between 0 and 10^6. *)
Theorem default_config_safe (out : stdout) :
  exists d,
    derive default_config = Ok d
    /\ vapor_chamber_model default_config out =
         (out ++ results_summary default_config d, Ok tt)
    /\ epsilon_evap d = porosity 200 0.000051
    /\ epsilon_cond d = porosity 80 0.00015
    /\ 0 < epsilon_evap d < 1
    /\ 0 < epsilon_cond d < 1
    /\ positive_divisors default_config d
    /\ capillary_limit_met d = true
    /\ dP_g d = 0
    /\ R_phase_change d = 0.01
    /\ Forall (fun x => 0 <= x < 1e6)
              (numbers_of (results_summary default_config d)).
Proof.
  destruct default_derive_ok as [d Hd]. exists d.
  destruct (valid_positive_divisors _ _ default_valid Hd) as (Hpd & He & Hc).
  destruct (default_numbers d Hd)
    as (Nlcv & Ncap & Nl & Nv & Ng & Nt & _ & _ & Nq & NRi & NRc & NdT).
  assert (A := derive_assignments _ _ Hd).
  assert (Hmet : capillary_limit_met d = true).
  { unfold capillary_limit_met.
    destruct (Rge_dec (dP_cap d) (dP_total d)) as [G | G];
      [ reflexivity | exfalso; apply G; lra ]. }
  split; [ exact Hd | ].
  split; [ unfold vapor_chamber_model; rewrite Hd; reflexivity | ].
  split; [ rewrite (as_epsilon_evap _ _ A), (as_mesh_number_evap _ _ A); reflexivity | ].
  split; [ rewrite (as_epsilon_cond _ _ A), (as_mesh_number_cond _ _ A); reflexivity | ].
  split; [ exact He | ]. split; [ exact Hc | ]. split; [ exact Hpd | ].
  split; [ exact Hmet | ]. split; [ exact Ng | ].
  split; [ exact (as_R_phase_change _ _ A) | ].
  unfold results_summary, verdict_lines. rewrite Hmet.
  cbn [numbers_of flat_map app summary_head summary_tail].
  rewrite (as_t_evap_wick _ _ A), (as_t_cond_wick _ _ A), Ng.
  cbn [default_config T_op Q_in phi_deg filling_ratio target_vacuum_Pa
       d_w_evap num_layers_evap d_w_cond num_layers_cond].
  clear - Nlcv Ncap Nl Nv Nt Nq NRi NRc NdT.
  repeat (apply Forall_cons; [ lra | ]).
  apply Forall_nil.
Qed.

(** ** A wick without layers *)

(** C8 (as the code behaves): with a layer count of 0 on either wick the run
    is aborted by a [ZeroDivisionError] raised no later than line 101, the
    liquid pressure drop of that wick, that is in section 3 or 4 of the
    script and never at the resistance stage; nothing is printed, so no
    infinite value reaches the report. *)
Theorem layers_zero_division_error (c : Configuration) (out : stdout) :
  num_layers_evap c = 0%Z \/ num_layers_cond c = 0%Z ->
  exists s,
    derive c = Raise (ZeroDivisionError s)
    /\ (line_of s <= 101)%nat
    /\ stage_of s <> ThermalResistance
    /\ vapor_chamber_model c out = (out, Raise (ZeroDivisionError s)).
Proof.
  intros Hz. assert (Hr := layers_zero_raises c Hz).
  unfold vapor_chamber_model.
  destruct (derive c) as [d | [s]]; cbn in Hr.
  - contradiction.
  - exists s. split; [ reflexivity | ]. split; [ exact Hr | ].
    split; [ | reflexivity ].
    destruct s; cbn in Hr |- *; try discriminate; lia.
Qed.

Lemma layers_zero_division_error_no_evap_layer :
  exists s,
    derive no_evap_layer_config = Raise (ZeroDivisionError s)
    /\ (line_of s <= 101)%nat
    /\ stage_of s <> ThermalResistance
    /\ vapor_chamber_model no_evap_layer_config [] =
         ([], Raise (ZeroDivisionError s)).
Proof.
  apply (layers_zero_division_error no_evap_layer_config []).
  left. reflexivity.
Defined.

(** C8, the claim as written fails: on the shipped configuration with an
    evaporator wick of no layer the exception is the division error of line
    101, in the capillary section; it is no error of the resistance stage,
    and no check of the configuration precedes it. *)
Lemma no_evap_layer_raises_at_line_101 :
  derive no_evap_layer_config = Raise (ZeroDivisionError at_dP_l_evap)
  /\ line_of at_dP_l_evap = 101%nat
  /\ stage_of at_dP_l_evap = CapillaryPerformance
  /\ ~ (exists s, derive no_evap_layer_config = Raise (ZeroDivisionError s)
                  /\ stage_of s = ThermalResistance).
Proof.
  assert (Hpi := PI_RGT_0). assert (Hpi4 := PI_4).
  assert (E : derive no_evap_layer_config
              = Raise (ZeroDivisionError at_dP_l_evap)).
  { unfold derive. cbv zeta.
    cbn [no_evap_layer_config with_evap_wick default_config
         T_op Q_in phi_deg filling_ratio target_vacuum_Pa
         experimental_correction_factor vc_length vc_width t_evap_wall
         t_cond_wall t_vapor evap_length evap_width k_shell
         mesh_number_evap_wpi d_w_evap num_layers_evap mesh_number_cond_wpi
         d_w_cond num_layers_cond rho_l rho_v mu_l mu_v sigma h_fg k_l
         theta_deg].
    unfold in_to_m.
    do 6 step.
    rewrite bind_div_at_zero; [ reflexivity | ring ]. }
  split; [ exact E | ]. split; [ reflexivity | ]. split; [ reflexivity | ].
  intros (s & Hs & Hst). rewrite E in Hs. injection Hs as <-.
  discriminate Hst.
Qed.

(** ** Porosity outside the unit interval *)

(** C3, the claim as written fails: with a 180 um wire on the 200 wpi
    evaporator mesh the porosity is negative, and the run raises nothing; it
    goes through the pressure and resistance formulas and prints the
    report. *)
Lemma thick_evap_wire_not_rejected :
  exists d,
    derive thick_evap_wire_config = Ok d
    /\ epsilon_evap d = porosity 200 0.00018
    /\ epsilon_evap d < 0
    /\ vapor_chamber_model thick_evap_wire_config [] =
         (results_summary thick_evap_wire_config d, Ok tt).
Proof.
  destruct thick_evap_wire_derive as (d & Hd & He). exists d.
  split; [ exact Hd | ]. split; [ exact He | ].
  split.
  - rewrite He. unfold porosity, in_to_m. assert (Hpi3 := PI2_3_2). lra.
  - unfold vapor_chamber_model. rewrite Hd. reflexivity.
Qed.

(** C3 (as the code behaves): the script has no porosity check.  A porosity
    equal to 1 on either wick makes a divisor of lines 70-72 zero: the run is
    aborted by a [ZeroDivisionError] in the derived-parameter section, before
    any pressure or resistance formula, and nothing is printed. *)
Theorem porosity_one_division_error (c : Configuration) (out : stdout) :
  porosity (mesh_number_evap_wpi c) (d_w_evap c) = 1
  \/ porosity (mesh_number_cond_wpi c) (d_w_cond c) = 1 ->
  exists s,
    derive c = Raise (ZeroDivisionError s)
    /\ (line_of s <= 72)%nat
    /\ stage_of s = DerivedParameters
    /\ vapor_chamber_model c out = (out, Raise (ZeroDivisionError s)).
Proof.
  intros H. assert (Hr := porosity_one_raises c H).
  unfold vapor_chamber_model.
  destruct (derive c) as [d | [s]]; cbn in Hr.
  - contradiction.
  - exists s. split; [ reflexivity | ]. split; [ exact Hr | ].
    split; [ | reflexivity ].
    destruct s; cbn in Hr |- *; try reflexivity; lia.
Qed.

Lemma porosity_one_division_error_no_evap_wire :
  exists s,
    derive no_evap_wire_config = Raise (ZeroDivisionError s)
    /\ (line_of s <= 72)%nat
    /\ stage_of s = DerivedParameters
    /\ vapor_chamber_model no_evap_wire_config [] =
         ([], Raise (ZeroDivisionError s)).
Proof.
  apply (porosity_one_division_error no_evap_wire_config []).
  left. simpl. unfold porosity. field. unfold in_to_m. lra.
Defined.

(** ** Further properties of the script *)

(** A run that returns met no zero divisor. *)
Lemma derive_nonzero_divisors (c : Configuration) (d : Derived) :
  derive c = Ok d -> nonzero_divisors c d.
Proof.
  intros H. derive_inv H. constructor; cbn; assumption.
Qed.

(** A well-conditioned configuration is valid and has positive walls. *)
Lemma well_conditioned_valid (c : Configuration) :
  well_conditioned c ->
  valid_config c /\ 0 < t_evap_wall c /\ 0 < t_cond_wall c.
Proof.
  intros [Hlen Hwid Hwe Hwc Htv Hel Hew Hks Hme Hde Hne Hmc Hdc Hnc
          Hrl Hrv Hml Hmv Hh Hkl Hpe Hpc HA].
  assert (Hp : 0 < vc_length c * vc_width c)
    by (apply Rmult_lt_0_compat; lra).
  split; [ constructor; try lra; try lia | split; lra ].
Qed.

(** X1: a well-conditioned configuration (every input of a divisor between
    10^-9 and 10^9, 1 to 1000 layers, porosities between 0.01 and 0.99, heat
    source at most 99% of the plate) raises nothing: the report is printed,
    every divisor is strictly positive, and so are the permeabilities, the
    wick conductivities, the per-watt pressure terms and the resistances. *)
Theorem well_conditioned_config_runs (c : Configuration) (out : stdout) :
  well_conditioned c ->
  exists d,
    derive c = Ok d
    /\ vapor_chamber_model c out = (out ++ results_summary c d, Ok tt)
    /\ positive_divisors c d
    /\ 0 < K_evap d /\ 0 < K_cond d
    /\ 0 < k_wick_evap d /\ 0 < k_wick_cond d
    /\ 0 < liquid_pressure_term d /\ 0 < vapor_pressure_term d
    /\ 0 < R_evap_wall d /\ 0 < R_evap_wick d
    /\ 0 < R_cond_wick d /\ 0 < R_cond_wall d.
Proof.
  intros W.
  destruct (well_conditioned_valid c W) as (V & Hwe & Hwc).
  destruct (derive_valid c V) as [d Hd]. exists d.
  destruct (valid_positive_divisors c d V Hd) as (P & Be & Bc).
  assert (A := derive_assignments c d Hd).
  destruct V as [Hlen Hwid Htv Hel Hew Hks Hme Hde Hne Hmc Hdc Hnc
                 Hrl Hrv Hml Hmv Hh Hkl Hpe Hpc HA].
  assert (Hcv : 0 < C_vapor) by (unfold C_vapor; lra).
  assert (HL : 0 < L_eff d) by (rewrite (as_L_eff _ _ A); lra).
  assert (Nume := k_wick_num_pos _ _ _ Hks Hkl Be).
  assert (Numc := k_wick_num_pos _ _ _ Hks Hkl Bc).
  assert (Dene := pd_k_wick_evap _ _ P).
  assert (Denc := pd_k_wick_cond _ _ P).
  assert (D1 := pd_dP_l_cond _ _ P). assert (D2 := pd_dP_l_evap _ _ P).
  assert (D3 := pd_dP_v _ _ P).
  assert (D4 := pd_R_evap_wall _ _ P). assert (D5 := pd_R_evap_wick _ _ P).
  assert (D6 := pd_R_cond_wick _ _ P). assert (D7 := pd_R_cond_wall _ _ P).
  assert (D8 := pd_K_evap _ _ P). assert (D9 := pd_K_cond _ _ P).
  destruct Be as [Be0 Be1], Bc as [Bc0 Bc1].
  assert (Htew : 0 < t_evap_wick d)
    by (rewrite (as_t_evap_wick _ _ A); pos).
  assert (Htcw : 0 < t_cond_wick d)
    by (rewrite (as_t_cond_wick _ _ A); pos).
  split; [ exact Hd | ].
  split; [ unfold vapor_chamber_model; rewrite Hd; reflexivity | ].
  split; [ exact P | ].
  split; [ rewrite (as_K_evap _ _ A); pos | ].
  split; [ rewrite (as_K_cond _ _ A); pos | ].
  split; [ rewrite (as_k_wick_evap _ _ A); pos | ].
  split; [ rewrite (as_k_wick_cond _ _ A); pos | ].
  split; [ rewrite (as_liquid_pressure_term _ _ A); pos | ].
  split; [ rewrite (as_vapor_pressure_term _ _ A); pos | ].
  split; [ rewrite (as_R_evap_wall _ _ A); pos | ].
  split; [ rewrite (as_R_evap_wick _ _ A); pos | ].
  split; [ rewrite (as_R_cond_wick _ _ A); pos | ].
  rewrite (as_R_cond_wall _ _ A); pos.
Qed.

(** The shipped configuration is well-conditioned. *)
Lemma default_well_conditioned : well_conditioned default_config.
Proof.
  assert (Hpi3 := PI2_3_2). assert (Hpi4 := PI_4).
  constructor; simpl; unfold porosity, in_to_m; try lra; try lia.
Qed.

Lemma well_conditioned_config_runs_default :
  exists d,
    derive default_config = Ok d
    /\ positive_divisors default_config d
    /\ 0 < K_evap d /\ 0 < K_cond d.
Proof.
  destruct (well_conditioned_config_runs default_config []
              default_well_conditioned)
    as (d & H1 & _ & H2 & H3 & H4 & _).
  exists d.
  split; [ exact H1 | ]. split; [ exact H2 | ]. split; assumption.
Defined.

(** X2: a run that returns had none of these inputs at zero: mesh counts,
    wire diameters, layer counts, chamber width, vapor thickness, heat source
    length and width, densities, latent heat and both conductivities; and
    neither porosity was 0 or 1. *)
Theorem run_needs_nonzero_inputs (c : Configuration) (d : Derived) :
  derive c = Ok d ->
  (mesh_number_evap_wpi c <> 0 /\ d_w_evap c <> 0
   /\ num_layers_evap c <> 0%Z)
  /\ (mesh_number_cond_wpi c <> 0 /\ d_w_cond c <> 0
      /\ num_layers_cond c <> 0%Z)
  /\ (vc_width c <> 0 /\ t_vapor c <> 0
      /\ evap_length c <> 0 /\ evap_width c <> 0)
  /\ (rho_l c <> 0 /\ rho_v c <> 0 /\ h_fg c <> 0
      /\ k_shell c <> 0 /\ k_l c <> 0)
  /\ (epsilon_evap d <> 0 /\ epsilon_evap d <> 1
      /\ epsilon_cond d <> 0 /\ epsilon_cond d <> 1).
Proof.
  intros H.
  assert (A := derive_assignments c d H).
  destruct (derive_nonzero_divisors c d H)
    as [N1 N2 N3 N4 N5 N6 N7 N8 N9 N10 N11 N12 N13 N14 N15].
  (* evaporator *)
  apply Rmult_neq_0_reg in N7. destruct N7 as [N7 Nh].
  apply Rmult_neq_0_reg in N7. destruct N7 as [N7 NKe].
  apply Rmult_neq_0_reg in N7. destruct N7 as [Nrl NAwe].
  rewrite (as_A_wick_evap _ _ A), (as_t_evap_wick _ _ A) in NAwe.
  apply Rmult_neq_0_reg in NAwe. destruct NAwe as [Nte Nw].
  apply Rmult_neq_0_reg in Nte. destruct Nte as [Nde Nne].
  apply Rmult_neq_0_reg in Nde. destruct Nde as [_ Nde].
  (* condenser *)
  apply Rmult_neq_0_reg in N6. destruct N6 as [N6 _].
  apply Rmult_neq_0_reg in N6. destruct N6 as [N6 NKc].
  apply Rmult_neq_0_reg in N6. destruct N6 as [_ NAwc].
  rewrite (as_A_wick_cond _ _ A), (as_t_cond_wick _ _ A) in NAwc.
  apply Rmult_neq_0_reg in NAwc. destruct NAwc as [Ntc _].
  apply Rmult_neq_0_reg in Ntc. destruct Ntc as [Ndc Nnc].
  apply Rmult_neq_0_reg in Ndc. destruct Ndc as [_ Ndc].
  (* vapor core *)
  apply Rmult_neq_0_reg in N8. destruct N8 as [N8 _].
  apply Rmult_neq_0_reg in N8. destruct N8 as [N8 _].
  apply Rmult_neq_0_reg in N8. destruct N8 as [N8 NAv].
  apply Rmult_neq_0_reg in N8. destruct N8 as [_ Nrv].
  rewrite (as_A_vapor _ _ A) in NAv.
  apply Rmult_neq_0_reg in NAv. destruct NAv as [Ntv _].
  (* resistances *)
  apply Rmult_neq_0_reg in N12. destruct N12 as [Nks NAe].
  rewrite (as_A_evap _ _ A) in NAe.
  apply Rmult_neq_0_reg in NAe. destruct NAe as [Nel New].
  apply Rmult_neq_0_reg in N13. destruct N13 as [Nkwe _].
  rewrite (as_k_wick_evap _ _ A) in Nkwe.
  apply Rmult_neq_0_reg in Nkwe. destruct Nkwe as [Nkl _].
  (* mesh counts *)
  rewrite (as_mesh_number_evap _ _ A) in N1.
  assert (Nme : mesh_number_evap_wpi c <> 0).
  { intros E. apply N1. rewrite E. unfold Rdiv. ring. }
  (* porosities *)
  assert (Ne1 : epsilon_evap d <> 1).
  { intros E. apply N2. rewrite E. ring. }
  assert (Nc1 : epsilon_cond d <> 1).
  { intros E. apply N3. rewrite E. ring. }
  assert (Ne0 : epsilon_evap d <> 0).
  { intros E. apply NKe. rewrite (as_K_evap _ _ A), E. unfold Rdiv. ring. }
  assert (Nc0 : epsilon_cond d <> 0).
  { intros E. apply NKc. rewrite (as_K_cond _ _ A), E. unfold Rdiv. ring. }
  assert (Nmc : mesh_number_cond_wpi c <> 0).
  { intros E. apply Nc1.
    rewrite (as_epsilon_cond _ _ A), (as_mesh_number_cond _ _ A), E.
    unfold Rdiv. ring. }
  repeat split; try assumption.
  - intros E. apply Nne. rewrite E. reflexivity.
  - intros E. apply Nnc. rewrite E. reflexivity.
Qed.

Lemma run_needs_nonzero_inputs_default :
  exists d, derive default_config = Ok d
  /\ epsilon_evap d <> 0 /\ epsilon_evap d <> 1
  /\ epsilon_cond d <> 0 /\ epsilon_cond d <> 1.
Proof.
  destruct default_derive_ok as [d Hd]. exists d.
  destruct (run_needs_nonzero_inputs default_config d Hd)
    as (_ & _ & _ & _ & (H1 & H2 & H3 & H4)).
  repeat split; assumption.
Defined.

Lemma div_lt_1_iff (x y : R) : 0 < y -> (x / y < 1 <-> x < y).
Proof.
  intros Hy.
  assert (E : x = x / y * y) by (field; lra).
  set (q := x / y) in *. split; intros H; nra.
Qed.

(** X3: for a positive mesh count and wire diameter the porosity is below 1,
    and it is positive exactly when [wpi * d_w < 4 * in_to_m / PI]: the
    bound a screen specification has to meet, on either wick. *)
Theorem porosity_in_unit_interval_iff (c : Configuration) (d : Derived) :
  derive c = Ok d ->
  (0 < mesh_number_evap_wpi c -> 0 < d_w_evap c ->
   epsilon_evap d < 1
   /\ (0 < epsilon_evap d <->
       mesh_number_evap_wpi c * d_w_evap c < 4 * in_to_m / PI))
  /\ (0 < mesh_number_cond_wpi c -> 0 < d_w_cond c ->
      epsilon_cond d < 1
      /\ (0 < epsilon_cond d <->
          mesh_number_cond_wpi c * d_w_cond c < 4 * in_to_m / PI)).
Proof.
  intros H.
  assert (A := derive_assignments c d H).
  assert (Hpi := PI_RGT_0).
  assert (Hin : 0 < in_to_m) by (unfold in_to_m; lra).
  assert (Hy : 0 < 4 * in_to_m / PI)
    by (apply Rdiv_lt_0_compat; lra).
  assert (G : forall wpi dw, 0 < wpi -> 0 < dw ->
            1 - PI * (wpi / in_to_m) * dw / 4 < 1
            /\ (0 < 1 - PI * (wpi / in_to_m) * dw / 4 <->
                wpi * dw < 4 * in_to_m / PI)).
  { intros wpi dw Hw Hd.
    assert (E : PI * (wpi / in_to_m) * dw / 4
                = (wpi * dw) / (4 * in_to_m / PI)) by (field; lra).
    rewrite E.
    assert (Hx : 0 < wpi * dw) by (apply Rmult_lt_0_compat; assumption).
    assert (Hq : 0 < wpi * dw / (4 * in_to_m / PI))
      by (apply Rdiv_lt_0_compat; assumption).
    destruct (div_lt_1_iff (wpi * dw) _ Hy) as [I1 I2].
    split; [ lra | ]. split; intros K.
    - apply I1. lra.
    - apply I2 in K. lra. }
  split; intros Hw Hd.
  - rewrite (as_epsilon_evap _ _ A), (as_mesh_number_evap _ _ A).
    apply G; assumption.
  - rewrite (as_epsilon_cond _ _ A), (as_mesh_number_cond _ _ A).
    apply G; assumption.
Qed.

Lemma porosity_in_unit_interval_iff_default :
  exists d, derive default_config = Ok d
  /\ epsilon_evap d < 1
  /\ (0 < epsilon_evap d <-> 200 * 0.000051 < 4 * in_to_m / PI).
Proof.
  destruct default_derive_ok as [d Hd]. exists d.
  destruct (porosity_in_unit_interval_iff default_config d Hd) as [He _].
  split; [ exact Hd | ]. apply He; simpl; lra.
Defined.

(** X4: the permeability has the sign of the porosity: positive for a
    positive porosity, negative for a negative one, on either wick. *)
Theorem permeability_sign (c : Configuration) (d : Derived) :
  derive c = Ok d ->
  (0 < epsilon_evap d -> 0 < K_evap d)
  /\ (epsilon_evap d < 0 -> K_evap d < 0)
  /\ (0 < epsilon_cond d -> 0 < K_cond d)
  /\ (epsilon_cond d < 0 -> K_cond d < 0).
Proof.
  intros H.
  assert (A := derive_assignments c d H).
  destruct (derive_nonzero_divisors c d H)
    as [_ N2 N3 _ _ N6 N7 _ _ _ _ _ _ _ _].
  assert (G : forall dw e K,
            K = dw ^ 2 * e ^ 3 / (122 * (1 - e) ^ 2) ->
            122 * (1 - e) ^ 2 <> 0 -> K <> 0 ->
            (0 < e -> 0 < K) /\ (e < 0 -> K < 0)).
  { intros dw e K EK Nd NK.
    assert (Hd2 : 0 <= dw ^ 2) by apply pow2_ge_0.
    assert (Hden : 0 < 122 * (1 - e) ^ 2).
    { assert (0 <= (1 - e) ^ 2) by apply pow2_ge_0. lra. }
    assert (Hdw : 0 < dw ^ 2).
    { destruct Hd2 as [P | Z]; [ exact P | ].
      exfalso. apply NK. rewrite EK, <- Z. unfold Rdiv. ring. }
    split; intros He.
    - rewrite EK. apply Rdiv_lt_0_compat; [ | assumption ].
      apply Rmult_lt_0_compat; [ assumption | apply pow_lt; assumption ].
    - assert (E3 : e ^ 3 < 0).
      { replace (e ^ 3) with (- ((- e) ^ 3)) by ring.
        assert (0 < (- e) ^ 3) by (apply pow_lt; lra). lra. }
      rewrite EK.
      replace (dw ^ 2 * e ^ 3 / (122 * (1 - e) ^ 2))
        with (- (dw ^ 2 * (- e ^ 3) / (122 * (1 - e) ^ 2)))
        by (field; lra).
      apply Ropp_lt_gt_0_contravar, Rlt_gt.
      apply Rdiv_lt_0_compat; [ | assumption ].
      apply Rmult_lt_0_compat; lra. }
  apply Rmult_neq_0_reg in N7. destruct N7 as [N7 _].
  apply Rmult_neq_0_reg in N7. destruct N7 as [_ NKe].
  apply Rmult_neq_0_reg in N6. destruct N6 as [N6 _].
  apply Rmult_neq_0_reg in N6. destruct N6 as [_ NKc].
  destruct (G _ _ _ (as_K_evap _ _ A) N2 NKe) as [G1 G2].
  destruct (G _ _ _ (as_K_cond _ _ A) N3 NKc) as [G3 G4].
  repeat split; assumption.
Qed.

Lemma permeability_sign_thick_wire :
  exists d, derive thick_evap_wire_config = Ok d
  /\ K_evap d < 0 /\ 0 < K_cond d.
Proof.
  destruct thick_evap_wire_derive as (d & Hd & He). exists d.
  destruct (permeability_sign thick_evap_wire_config d Hd)
    as (_ & G2 & G3 & _).
  assert (Hpi3 := PI2_3_2). assert (Hpi4 := PI_4).
  assert (A := derive_assignments _ _ Hd).
  split; [ exact Hd | ]. split.
  - apply G2. rewrite He. unfold porosity, in_to_m. lra.
  - apply G3. rewrite (as_epsilon_cond _ _ A), (as_mesh_number_cond _ _ A).
    simpl. unfold in_to_m. lra.
Defined.

Section WickConductivityBounds.

Variables ks kl e : R.
Hypothesis Hkl : 0 < kl.
Hypothesis Hle : kl <= ks.
Hypothesis He : 0 <= e <= 1.

(** The effective conductivity lies between the liquid and the shell
    conductivities. *)
Lemma k_wick_between_bounds :
  kl <= kl * ((ks + kl + (1 - e) * (ks - kl))
              / (ks + kl - (1 - e) * (ks - kl))) <= ks.
Proof.
  destruct He as [He0 He1].
  set (x := (1 - e) * (ks - kl)).
  assert (Hx0 : 0 <= x) by (apply Rmult_le_pos; lra).
  assert (Hx1 : x <= ks - kl).
  { unfold x. rewrite <- (Rmult_1_l (ks - kl)) at 2.
    apply Rmult_le_compat_r; lra. }
  assert (Hden : 0 < ks + kl - x) by lra.
  assert (E : (ks + kl + x) = (ks + kl + x) / (ks + kl - x) * (ks + kl - x))
    by (field; lra).
  set (r := (ks + kl + x) / (ks + kl - x)) in *.
  assert (Hr1 : 1 <= r).
  { apply Rmult_le_reg_r with (ks + kl - x); [ assumption | ]. lra. }
  split.
  - rewrite <- (Rmult_1_r kl) at 1. apply Rmult_le_compat_l; lra.
  - apply Rmult_le_reg_r with (ks + kl - x); [ assumption | ].
    rewrite Rmult_assoc, <- E.
    assert (0 <= (ks + kl) * (ks - kl - x)) by (apply Rmult_le_pos; lra).
    lra.
Qed.

End WickConductivityBounds.

(** X5: when the liquid conducts no better than the shell and the porosity
    lies in [0, 1], the effective wick conductivity lies between the liquid
    conductivity and the shell conductivity, on either wick. *)
Theorem k_wick_between (c : Configuration) (d : Derived) :
  derive c = Ok d ->
  0 < k_l c -> k_l c <= k_shell c ->
  (0 <= epsilon_evap d <= 1 -> k_l c <= k_wick_evap d <= k_shell c)
  /\ (0 <= epsilon_cond d <= 1 -> k_l c <= k_wick_cond d <= k_shell c).
Proof.
  intros H Hkl Hle.
  assert (A := derive_assignments c d H).
  split; intros He.
  - rewrite (as_k_wick_evap _ _ A). apply k_wick_between_bounds; assumption.
  - rewrite (as_k_wick_cond _ _ A). apply k_wick_between_bounds; assumption.
Qed.

Lemma k_wick_between_default :
  exists d, derive default_config = Ok d
  /\ 0.668 <= k_wick_evap d <= 380
  /\ 0.668 <= k_wick_cond d <= 380.
Proof.
  destruct default_derive_ok as [d Hd]. exists d.
  destruct (valid_positive_divisors _ _ default_valid Hd) as (_ & Be & Bc).
  destruct (k_wick_between default_config d Hd) as [Ge Gc];
    [ simpl; lra | simpl; lra | ].
  split; [ exact Hd | ]. split.
  - apply Ge. lra.
  - apply Gc. lra.
Defined.

(** X6: for a vapor space thinner than the chamber is wide, the hydraulic
    diameter lies between the vapor thickness and twice the vapor
    thickness. *)
Theorem d_h_vapor_bounds (c : Configuration) (d : Derived) :
  derive c = Ok d ->
  0 < t_vapor c -> t_vapor c <= vc_width c ->
  t_vapor c <= d_h_vapor d < 2 * t_vapor c.
Proof.
  intros H Ht Hw.
  rewrite (as_d_h_vapor _ _ (derive_assignments c d H)).
  set (t := t_vapor c) in *. set (w := vc_width c) in *.
  assert (Hs : 0 < t + w) by lra.
  assert (E : 2 * t * w = 2 * t * w / (t + w) * (t + w)) by (field; lra).
  set (q := 2 * t * w / (t + w)) in *.
  split.
  - apply Rmult_le_reg_r with (t + w); [ assumption | ]. nra.
  - apply Rmult_lt_reg_r with (t + w); [ assumption | ]. nra.
Qed.

Lemma d_h_vapor_bounds_default :
  exists d, derive default_config = Ok d
  /\ 0.00192 <= d_h_vapor d < 2 * 0.00192.
Proof.
  destruct default_derive_ok as [d Hd]. exists d.
  split; [ exact Hd | ].
  apply (d_h_vapor_bounds default_config d Hd); simpl; lra.
Defined.

(** The capillary pressure with the pore radius written out. *)
Lemma dP_cap_def (c : Configuration) (d : Derived) :
  derive c = Ok d ->
  dP_cap d =
    4 * sigma c * cos (radians (theta_deg c))
    * (mesh_number_evap_wpi c / in_to_m).
Proof.
  intros H.
  assert (A := derive_assignments c d H).
  destruct (derive_nonzero_divisors c d H) as [N1 _ _ _ _ _ _ _ _ _ _ _ _ _ _].
  rewrite (as_dP_cap _ _ A), (as_theta _ _ A), (as_rc_eff _ _ A).
  rewrite (as_mesh_number_evap _ _ A) in *.
  set (m := mesh_number_evap_wpi c / in_to_m) in *.
  field. lra.
Qed.

(** X7: the capillary pressure in closed form: four times the surface
    tension times the cosine of the contact angle times the evaporator mesh
    count per metre; it vanishes without surface tension and at a contact
    angle whose cosine is 0. *)
Theorem dP_cap_closed_form (c : Configuration) (d : Derived) :
  derive c = Ok d ->
  dP_cap d =
    4 * sigma c * cos (radians (theta_deg c))
    * (mesh_number_evap_wpi c / in_to_m)
  /\ (sigma c = 0 -> dP_cap d = 0)
  /\ (cos (radians (theta_deg c)) = 0 -> dP_cap d = 0).
Proof.
  intros H.
  destruct (derive_nonzero_divisors c d H) as [N1 _ _ _ _ N6 _ _ _ _ _ _ _ _ _].
  rewrite (dP_cap_def c d H).
  split; [ reflexivity | ].
  split; intros E; rewrite E; ring.
Qed.

Lemma dP_cap_closed_form_default :
  exists d, derive default_config = Ok d
  /\ dP_cap d = 4 * 0.0644 * cos (radians 0) * (200 / in_to_m).
Proof.
  destruct default_derive_ok as [d Hd]. exists d.
  split; [ exact Hd | exact (proj1 (dP_cap_closed_form default_config d Hd)) ].
Defined.

(** X8: the vapor pressure drop in closed form, with the vapor cross-section
    and the hydraulic diameter written out:
    [12 mu_v Q_in L_eff (t + w)^2 / (rho_v h_fg t^3 w^3)] for a vapor space
    of thickness [t] and width [w]. *)
Theorem dP_v_closed_form (c : Configuration) (d : Derived) :
  derive c = Ok d ->
  dP_v d =
    12 * mu_v c * Q_in c * L_eff d * (t_vapor c + vc_width c) ^ 2
    / (rho_v c * h_fg c * t_vapor c ^ 3 * vc_width c ^ 3).
Proof.
  intros H.
  assert (A := derive_assignments c d H).
  destruct (derive_nonzero_divisors c d H)
    as [_ _ _ N4 _ _ _ N8 _ _ _ _ _ _ _].
  apply Rmult_neq_0_reg in N8. destruct N8 as [N8 Nh].
  apply Rmult_neq_0_reg in N8. destruct N8 as [N8 _].
  apply Rmult_neq_0_reg in N8. destruct N8 as [N8 NAv].
  apply Rmult_neq_0_reg in N8. destruct N8 as [_ Nrv].
  rewrite (as_A_vapor _ _ A) in NAv.
  apply Rmult_neq_0_reg in NAv. destruct NAv as [Nt Nw].
  rewrite (as_dP_v _ _ A), (as_A_vapor _ _ A), (as_d_h_vapor _ _ A).
  unfold C_vapor. field. repeat split; assumption.
Qed.

Lemma dP_v_closed_form_default :
  exists d, derive default_config = Ok d
  /\ dP_v d =
       12 * 1.09e-5 * 150 * L_eff d * (0.00192 + 0.070) ^ 2
       / (0.198 * 2.33e6 * 0.00192 ^ 3 * 0.070 ^ 3).
Proof.
  destruct default_derive_ok as [d Hd]. exists d.
  split; [ exact Hd | exact (dP_v_closed_form default_config d Hd) ].
Defined.

(** The thermal resistances do not depend on the heat load. *)
Lemma thermal_at_load (c : Configuration) (d : Derived) (q : R) (dq : Derived) :
  derive c = Ok d ->
  derive (with_Q_in c q) = Ok dq ->
  R_total_ideal dq = R_total_ideal d
  /\ R_total_corrected dq = R_total_corrected d.
Proof.
  intros H Hq. derive_inv H. derive_inv Hq. cbn.
  split; reflexivity.
Qed.

(** X9: with no heat load the liquid and vapor drops vanish, the total drop
    is the gravitational drop, the predicted temperature drop is 0, and the
    verdict is MET exactly when [dP_cap >= dP_g]. *)
Theorem zero_heat_load (c : Configuration) (d : Derived) :
  derive c = Ok d ->
  Q_in c = 0 ->
  dP_l d = 0 /\ dP_v d = 0
  /\ dP_total d = dP_g d
  /\ delta_T d = 0
  /\ (capillary_limit_met d = true <-> dP_cap d >= dP_g d).
Proof.
  intros H Hq.
  assert (A := derive_assignments c d H).
  assert (El : dP_l d = 0).
  { rewrite (as_dP_l _ _ A), (as_dP_l_cond _ _ A), (as_dP_l_evap _ _ A), Hq.
    unfold Rdiv. ring. }
  assert (Ev : dP_v d = 0).
  { rewrite (as_dP_v _ _ A), Hq. unfold Rdiv. ring. }
  assert (Et : dP_total d = dP_g d).
  { rewrite (as_dP_total _ _ A), El, Ev. ring. }
  split; [ exact El | ]. split; [ exact Ev | ]. split; [ exact Et | ].
  split; [ rewrite (as_delta_T _ _ A), Hq; ring | ].
  unfold capillary_limit_met. rewrite Et.
  destruct (Rge_dec (dP_cap d) (dP_g d)) as [G | G]; split; intros K;
    try reflexivity; try assumption; try discriminate; contradiction.
Qed.

Lemma zero_heat_load_default :
  exists d, derive (with_Q_in default_config 0) = Ok d
  /\ dP_l d = 0 /\ dP_v d = 0 /\ dP_total d = dP_g d /\ delta_T d = 0.
Proof.
  destruct default_derive_ok as [d0 Hd0].
  destruct (derive_with_Q_in default_config d0 0 Hd0) as (d & Hd & _).
  exists d.
  destruct (zero_heat_load _ d Hd eq_refl) as (H1 & H2 & H3 & H4 & _).
  repeat split; assumption.
Defined.

(** X10: the pressure margin is the per-watt drop times the load reserve:
    [dP_cap - dP_total = (liquid term + vapor term) * (Q_max - Q_in)]. *)
Theorem pressure_margin (c : Configuration) (d : Derived) :
  derive c = Ok d ->
  dP_cap d - dP_total d =
    (liquid_pressure_term d + vapor_pressure_term d) * (Q_max d - Q_in c).
Proof.
  intros H.
  assert (A := derive_assignments c d H).
  destruct (derive_nonzero_divisors c d H)
    as [_ _ _ _ _ _ _ _ N9 _ _ _ _ _ _].
  assert (Hself : with_Q_in c (Q_in c) = c) by (destruct c; reflexivity).
  assert (H0 : derive (with_Q_in c (Q_in c)) = Ok d)
    by (rewrite Hself; exact H).
  destruct (drops_at_load c d _ _ H H0) as (_ & _ & _ & _ & _ & Et).
  rewrite Et, (as_Q_max _ _ A).
  set (S := liquid_pressure_term d + vapor_pressure_term d) in *.
  replace (liquid_pressure_term d * Q_in c + vapor_pressure_term d * Q_in c
           + dP_g d)
    with (S * Q_in c + dP_g d) by (unfold S; ring).
  field. exact N9.
Qed.

Lemma pressure_margin_default :
  exists d, derive default_config = Ok d
  /\ dP_cap d - dP_total d =
       (liquid_pressure_term d + vapor_pressure_term d) * (Q_max d - 150).
Proof.
  destruct default_derive_ok as [d Hd]. exists d.
  split; [ exact Hd | exact (pressure_margin default_config d Hd) ].
Defined.

(** X11: when the per-watt terms sum to a positive number, as on every valid
    configuration, [Q_max] has the sign of [dP_cap - dP_g]: positive when the
    capillary pressure exceeds the gravitational drop, zero when they are
    equal, negative when gravity alone exceeds the capillary pressure. *)
Theorem Q_max_sign (c : Configuration) (d : Derived) :
  derive c = Ok d ->
  0 < liquid_pressure_term d + vapor_pressure_term d ->
  (0 < Q_max d <-> dP_g d < dP_cap d)
  /\ (Q_max d = 0 <-> dP_cap d = dP_g d)
  /\ (Q_max d < 0 <-> dP_cap d < dP_g d).
Proof.
  intros H HS.
  assert (A := derive_assignments c d H).
  assert (E : dP_cap d - dP_g d =
              Q_max d * (liquid_pressure_term d + vapor_pressure_term d)).
  { rewrite (as_Q_max _ _ A). field. lra. }
  set (S := liquid_pressure_term d + vapor_pressure_term d) in *.
  set (Q := Q_max d) in *.
  repeat split; intros K; nra.
Qed.

Lemma Q_max_sign_default :
  exists d, derive default_config = Ok d
  /\ (0 < Q_max d <-> dP_g d < dP_cap d).
Proof.
  destruct default_derive_ok as [d Hd]. exists d.
  destruct (valid_positive_divisors _ _ default_valid Hd) as (P & _).
  destruct (Q_max_sign default_config d Hd (pd_Q_max _ _ P)) as (G & _).
  split; assumption.
Defined.

(** X12: the thermal resistances do not depend on the heat load, and the
    predicted temperature drop is the load times the corrected resistance:
    it is linear in the load. *)
Theorem delta_T_linear_in_Q_in
        (c : Configuration) (d : Derived) (q : R) (dq : Derived) :
  derive c = Ok d ->
  derive (with_Q_in c q) = Ok dq ->
  R_total_ideal dq = R_total_ideal d
  /\ R_total_corrected dq = R_total_corrected d
  /\ delta_T dq = q * R_total_corrected d
  /\ delta_T d = Q_in c * R_total_corrected d.
Proof.
  intros H Hq.
  destruct (thermal_at_load c d q dq H Hq) as [E1 E2].
  assert (A := derive_assignments c d H).
  assert (Aq := derive_assignments _ _ Hq).
  split; [ exact E1 | ]. split; [ exact E2 | ].
  split; [ rewrite (as_delta_T _ _ Aq), E2; reflexivity | ].
  exact (as_delta_T _ _ A).
Qed.

Lemma delta_T_linear_in_Q_in_default :
  exists d dq,
    derive default_config = Ok d
    /\ derive (with_Q_in default_config 300) = Ok dq
    /\ delta_T dq = 300 * R_total_corrected d
    /\ delta_T d = 150 * R_total_corrected d.
Proof.
  destruct default_derive_ok as [d Hd].
  destruct (derive_with_Q_in default_config d 300 Hd) as (dq & Hq & _).
  exists d, dq.
  destruct (delta_T_linear_in_Q_in default_config d 300 dq Hd Hq)
    as (_ & _ & H1 & H2).
  repeat split; assumption.
Defined.

(** X13: changing the layer count of the evaporator wick leaves its
    porosity, its permeability and the capillary pressure as they are; the
    liquid pressure drop of the evaporator is inversely proportional to the
    layer count and the thermal resistance of the evaporator wick is
    proportional to it. *)
Theorem evap_layers_tradeoff
        (c : Configuration) (d : Derived) (n : Z) (d' : Derived) :
  derive c = Ok d ->
  derive (with_layers_evap c n) = Ok d' ->
  epsilon_evap d' = epsilon_evap d
  /\ K_evap d' = K_evap d
  /\ dP_cap d' = dP_cap d
  /\ dP_l_cond d' = dP_l_cond d
  /\ dP_l_evap d' * IZR n = dP_l_evap d * IZR (num_layers_evap c)
  /\ R_evap_wick d' * IZR (num_layers_evap c) = R_evap_wick d * IZR n.
Proof.
  intros H H'.
  assert (A := derive_assignments c d H).
  assert (A' := derive_assignments _ _ H').
  destruct (derive_nonzero_divisors c d H)
    as [_ _ _ _ _ _ N7 _ _ _ _ _ N13 _ _].
  destruct (derive_nonzero_divisors _ _ H')
    as [_ _ _ _ _ _ N7' _ _ _ _ _ N13' _ _].
  destruct A as [Eme Emc Etew Etcw Eee Eec Erc EKe EKc EL Eia Evv Evew Evcw
        Evit Elcv EAe EAc EAwe EAwc EAv Edh Ephi Eth Ecap Elc Ele El Ev Eg Et
        Evt Elt Eq Ekwe Ekwc ERew EReW ERpc ERcW ERcw ERi ERc EdT].
  destruct A' as [Eme' Emc' Etew' Etcw' Eee' Eec' Erc' EKe' EKc' EL' Eia'
        Evv' Evew' Evcw' Evit' Elcv' EAe' EAc' EAwe' EAwc' EAv' Edh' Ephi'
        Eth' Ecap' Elc' Ele' El' Ev' Eg' Et' Evt' Elt' Eq' Ekwe' Ekwc' ERew'
        EReW' ERpc' ERcW' ERcw' ERi' ERc' EdT'].
  cbn [with_layers_evap with_evap_wick
       T_op Q_in phi_deg filling_ratio target_vacuum_Pa
       experimental_correction_factor vc_length vc_width t_evap_wall
       t_cond_wall t_vapor evap_length evap_width k_shell
       mesh_number_evap_wpi d_w_evap num_layers_evap mesh_number_cond_wpi
       d_w_cond num_layers_cond rho_l rho_v mu_l mu_v sigma h_fg k_l
       theta_deg] in *.
  assert (Xme : mesh_number_evap d' = mesh_number_evap d) by congruence.
  assert (Xee : epsilon_evap d' = epsilon_evap d) by congruence.
  assert (XKe : K_evap d' = K_evap d) by congruence.
  assert (Xmc : mesh_number_cond d' = mesh_number_cond d) by congruence.
  assert (Xec : epsilon_cond d' = epsilon_cond d) by congruence.
  assert (XKc : K_cond d' = K_cond d) by congruence.
  assert (XL : L_eff d' = L_eff d) by congruence.
  assert (Xrc : rc_eff d' = rc_eff d) by congruence.
  assert (Xcap : dP_cap d' = dP_cap d) by congruence.
  assert (XAwc : A_wick_cond d' = A_wick_cond d) by congruence.
  assert (Xlc : dP_l_cond d' = dP_l_cond d) by congruence.
  assert (XAe : A_evap d' = A_evap d) by congruence.
  assert (Xkwe : k_wick_evap d' = k_wick_evap d) by congruence.
  split; [ exact Xee | ]. split; [ exact XKe | ]. split; [ exact Xcap | ].
  split; [ exact Xlc | ].
  rewrite EAwe, Etew in N7. rewrite EAwe', Etew', XKe in N7'.
  rewrite Etew in EAwe. rewrite Etew' in EAwe'.
  split.
  - rewrite Ele', Ele, EAwe', EAwe, XKe, XL.
    apply Rmult_neq_0_reg in N7. destruct N7 as [N7 Nh].
    apply Rmult_neq_0_reg in N7. destruct N7 as [N7 NK].
    apply Rmult_neq_0_reg in N7. destruct N7 as [Nr NA].
    apply Rmult_neq_0_reg in NA. destruct NA as [Nt Nw].
    apply Rmult_neq_0_reg in Nt. destruct Nt as [Nd Nn].
    apply Rmult_neq_0_reg in Nd. destruct Nd as [_ Nd].
    apply Rmult_neq_0_reg in N7'. destruct N7' as [N7' _].
    apply Rmult_neq_0_reg in N7'. destruct N7' as [N7' _].
    apply Rmult_neq_0_reg in N7'. destruct N7' as [_ NA'].
    apply Rmult_neq_0_reg in NA'. destruct NA' as [Nt' _].
    apply Rmult_neq_0_reg in Nt'. destruct Nt' as [_ Nn'].
    field. repeat split; assumption.
  - rewrite EReW', EReW, Etew', Etew, Xkwe, XAe.
    apply Rmult_neq_0_reg in N13. destruct N13 as [Nk NAe].
    field. split; assumption.
Qed.

Lemma evap_layers_tradeoff_default :
  exists d d',
    derive default_config = Ok d
    /\ derive (with_layers_evap default_config 10) = Ok d'
    /\ dP_l_evap d' * 10 = dP_l_evap d * 5
    /\ R_evap_wick d' * 5 = R_evap_wick d * 10.
Proof.
  destruct default_derive_ok as [d Hd].
  assert (V : valid_config (with_layers_evap default_config 10)).
  { assert (Hpi := PI_RGT_0). assert (Hpi4 := PI_4).
    constructor; simpl; unfold porosity, in_to_m; try lra; try reflexivity. }
  destruct (derive_valid _ V) as [d' Hd'].
  exists d, d'.
  destruct (evap_layers_tradeoff default_config d 10 d' Hd Hd')
    as (_ & _ & _ & _ & H1 & H2).
  repeat split; assumption.
Defined.

Lemma frac_mono_strict (n1 n2 d1 d2 : R) :
  0 < n1 < n2 -> 0 < d2 <= d1 -> n1 / d1 < n2 / d2.
Proof.
  intros [Hn0 Hn] [Hd0 Hd].
  assert (Hd1 : 0 < d1) by lra.
  apply Rlt_le_trans with (n2 / d1).
  - apply Rmult_lt_compat_r; [ apply Rinv_0_lt_compat; assumption | assumption ].
  - apply Rmult_le_compat_l; [ lra | ].
    apply Rinv_le_contravar; assumption.
Qed.

Lemma cube_mono_strict (x y : R) : 0 < x < y -> x ^ 3 < y ^ 3.
Proof.
  intros [Hx Hxy].
  assert (0 < y - x) by lra.
  assert (0 < x * x) by (apply Rmult_lt_0_compat; assumption).
  assert (0 < y * y) by (apply Rmult_lt_0_compat; lra).
  assert (0 < x * y) by (apply Rmult_lt_0_compat; lra).
  replace (y ^ 3) with (x ^ 3 + (y - x) * (y * y + x * y + x * x)) by ring.
  assert (0 < (y - x) * (y * y + x * y + x * x))
    by (apply Rmult_lt_0_compat; lra).
  lra.
Qed.

(** X14: with the same wire, a coarser evaporator mesh (fewer wires per
    inch) gives a larger porosity and, when the porosity was positive, a
    larger permeability; with a wetting fluid ([sigma cos(theta) > 0]) it
    gives a smaller capillary pressure. *)
Theorem coarser_evap_mesh_tradeoff
        (c : Configuration) (d : Derived) (wpi : R) (d' : Derived) :
  derive c = Ok d ->
  derive (with_evap_wick c wpi (d_w_evap c) (num_layers_evap c)) = Ok d' ->
  0 < d_w_evap c ->
  0 < wpi < mesh_number_evap_wpi c ->
  epsilon_evap d < epsilon_evap d' < 1
  /\ (0 < epsilon_evap d -> K_evap d < K_evap d')
  /\ (0 < sigma c * cos (radians (theta_deg c)) -> dP_cap d' < dP_cap d).
Proof.
  intros H H' Hdw [Hw0 Hw].
  assert (A := derive_assignments c d H).
  assert (A' := derive_assignments _ _ H').
  assert (Cd := dP_cap_def c d H).
  assert (Cd' := dP_cap_def _ d' H').
  assert (Ee := as_epsilon_evap _ _ A). assert (Ee' := as_epsilon_evap _ _ A').
  assert (EK := as_K_evap _ _ A). assert (EK' := as_K_evap _ _ A').
  rewrite (as_mesh_number_evap _ _ A) in Ee.
  rewrite (as_mesh_number_evap _ _ A') in Ee'.
  cbn [with_evap_wick mesh_number_evap_wpi d_w_evap sigma theta_deg]
    in Ee', EK', Cd'.
  assert (Hpi := PI_RGT_0).
  assert (Hin : 0 < in_to_m) by (unfold in_to_m; lra).
  set (k := PI * d_w_evap c / (4 * in_to_m)).
  assert (Hk : 0 < k) by (apply Rdiv_lt_0_compat; [ apply Rmult_lt_0_compat | ]; lra).
  assert (X : epsilon_evap d = 1 - k * mesh_number_evap_wpi c)
    by (rewrite Ee; unfold k; field; lra).
  assert (X' : epsilon_evap d' = 1 - k * wpi)
    by (rewrite Ee'; unfold k; field; lra).
  assert (B : epsilon_evap d < epsilon_evap d' < 1).
  { rewrite X, X'. split; nra. }
  split; [ exact B | ]. split.
  - intros He. rewrite EK, EK'.
    assert (Hd2 : 0 < d_w_evap c ^ 2) by (apply pow_lt; assumption).
    apply frac_mono_strict.
    + split.
      * apply Rmult_lt_0_compat; [ assumption | apply pow_lt; assumption ].
      * apply Rmult_lt_compat_l; [ assumption | ].
        apply cube_mono_strict. lra.
    + split.
      * assert (0 < (1 - epsilon_evap d') ^ 2) by (apply pow_lt; lra). lra.
      * assert (S := square_mono (1 - epsilon_evap d') (1 - epsilon_evap d)).
        assert ((1 - epsilon_evap d') ^ 2 <= (1 - epsilon_evap d) ^ 2)
          by (apply S; lra).
        lra.
  - intros Hs. rewrite Cd, Cd'.
    assert (wpi / in_to_m < mesh_number_evap_wpi c / in_to_m).
    { apply Rmult_lt_compat_r; [ apply Rinv_0_lt_compat; assumption | assumption ]. }
    apply Rmult_lt_compat_l; [ lra | assumption ].
Qed.

Lemma coarser_evap_mesh_tradeoff_default :
  exists d d',
    derive default_config = Ok d
    /\ derive (with_evap_wick default_config 150 0.000051 5) = Ok d'
    /\ epsilon_evap d < epsilon_evap d' < 1
    /\ K_evap d < K_evap d'
    /\ dP_cap d' < dP_cap d.
Proof.
  destruct default_derive_ok as [d Hd].
  assert (Hpi := PI_RGT_0). assert (Hpi4 := PI_4).
  assert (V : valid_config (with_evap_wick default_config 150 0.000051 5)).
  { constructor; simpl; unfold porosity, in_to_m; try lra; try reflexivity. }
  destruct (derive_valid _ V) as [d' Hd'].
  exists d, d'.
  destruct (valid_positive_divisors _ _ default_valid Hd) as (_ & Be & _).
  destruct (coarser_evap_mesh_tradeoff default_config d 150 d' Hd Hd')
    as (H1 & H2 & H3); [ simpl; lra | simpl; lra | ].
  split; [ exact Hd | ]. split; [ exact Hd' | ]. split; [ exact H1 | ].
  split; [ apply H2; apply Be | ].
  apply H3. simpl. unfold radians. rewrite Rmult_0_l, cos_0. lra.
Defined.

(** X15: a heat source with the length and the width of the plate leaves
    no condenser area: on a well-conditioned configuration the run goes
    through the pressure balance and the evaporator resistances and is
    aborted by the division of line 126, the condenser wick resistance;
    nothing is printed. *)
Theorem heat_source_covering_plate (c : Configuration) (out : stdout) :
  well_conditioned c ->
  derive (with_heat_source c (vc_length c) (vc_width c))
    = Raise (ZeroDivisionError at_R_cond_wick)
  /\ line_of at_R_cond_wick = 126%nat
  /\ vapor_chamber_model (with_heat_source c (vc_length c) (vc_width c)) out =
       (out, Raise (ZeroDivisionError at_R_cond_wick)).
Proof.
  intros W.
  destruct (well_conditioned_valid c W) as (V & _ & _).
  destruct V as [Hlen Hwid Htv Hel Hew Hks Hme Hde Hne Hmc Hdc Hnc
                 Hrl Hrv Hml Hmv Hh Hkl Hpe Hpc HA].
  assert (E : derive (with_heat_source c (vc_length c) (vc_width c))
              = Raise (ZeroDivisionError at_R_cond_wick)).
  { unfold porosity in *.
    assert (Hin : 0 < in_to_m) by (unfold in_to_m; lra).
    assert (Hcv : 0 < C_vapor) by (unfold C_vapor; lra).
    assert (Nume := k_wick_num_pos _ _ _ Hks Hkl Hpe).
    assert (Numc := k_wick_num_pos _ _ _ Hks Hkl Hpc).
    assert (Dene := k_wick_den_pos _ _ _ Hks Hkl Hpe).
    assert (Denc := k_wick_den_pos _ _ _ Hks Hkl Hpc).
    destruct Hpe as [He0 He1], Hpc as [Hc0 Hc1].
    unfold derive. cbv zeta.
    cbn [with_heat_source
         T_op Q_in phi_deg filling_ratio target_vacuum_Pa
         experimental_correction_factor vc_length vc_width t_evap_wall
         t_cond_wall t_vapor evap_length evap_width k_shell
         mesh_number_evap_wpi d_w_evap num_layers_evap mesh_number_cond_wpi
         d_w_cond num_layers_cond rho_l rho_v mu_l mu_v sigma h_fg k_l
         theta_deg].
    do 16 step.
    rewrite bind_div_at_zero; [ reflexivity | ring ]. }
  split; [ exact E | ]. split; [ reflexivity | ].
  unfold vapor_chamber_model. rewrite E. reflexivity.
Qed.

Lemma heat_source_covering_plate_default :
  derive (with_heat_source default_config 0.070 0.070)
    = Raise (ZeroDivisionError at_R_cond_wick).
Proof.
  apply (heat_source_covering_plate default_config []).
  exact default_well_conditioned.
Defined.

(** The orientation angle enters no divisor: a run that succeeds for one
    angle succeeds for every angle, with the same liquid and vapor drops and
    the same capillary pressure. *)
Lemma derive_with_phi_deg (c : Configuration) (d : Derived) (a : R) :
  derive c = Ok d ->
  exists da,
    derive (with_phi_deg c a) = Ok da
    /\ L_eff da = L_eff d
    /\ dP_cap da = dP_cap d
    /\ dP_l da = dP_l d
    /\ dP_v da = dP_v d
    /\ liquid_pressure_term da = liquid_pressure_term d
    /\ vapor_pressure_term da = vapor_pressure_term d
    /\ R_total_corrected da = R_total_corrected d.
Proof.
  intros H. derive_inv H.
  unfold derive. cbv zeta.
  cbn [with_phi_deg T_op Q_in phi_deg filling_ratio target_vacuum_Pa
       experimental_correction_factor vc_length vc_width t_evap_wall
       t_cond_wall t_vapor evap_length evap_width k_shell
       mesh_number_evap_wpi d_w_evap num_layers_evap mesh_number_cond_wpi
       d_w_cond num_layers_cond rho_l rho_v mu_l mu_v sigma h_fg k_l
       theta_deg].
  do 18 (rewrite bind_div_at_ok by assumption; cbv beta).
  eexists. split; [ reflexivity | ]. cbn.
  repeat split; reflexivity.
Qed.

(** X17: tilting the chamber changes only the gravitational term: for every
    angle the run succeeds with the same capillary pressure and the same
    liquid and vapor drops; the gravitational drop is
    [rho_l g L_eff sin(angle)], bounded in absolute value by
    [|rho_l g L_eff|], and the total drop changes by the change of the
    gravitational drop. *)
Theorem orientation_changes_gravity_only
        (c : Configuration) (d : Derived) (a : R) :
  derive c = Ok d ->
  exists da,
    derive (with_phi_deg c a) = Ok da
    /\ dP_cap da = dP_cap d
    /\ dP_l da = dP_l d
    /\ dP_v da = dP_v d
    /\ dP_g da = rho_l c * g * L_eff d * sin (radians a)
    /\ Rabs (dP_g da) <= Rabs (rho_l c * g * L_eff d)
    /\ dP_total da - dP_total d = dP_g da - dP_g d.
Proof.
  intros H.
  destruct (derive_with_phi_deg c d a H)
    as (da & Hda & EL & Ecap & El & Ev & _).
  exists da.
  assert (A := derive_assignments c d H).
  assert (Aa := derive_assignments _ _ Hda).
  assert (Eg : dP_g da = rho_l c * g * L_eff d * sin (radians a)).
  { rewrite (as_dP_g _ _ Aa), (as_phi _ _ Aa), EL. reflexivity. }
  split; [ exact Hda | ]. split; [ exact Ecap | ]. split; [ exact El | ].
  split; [ exact Ev | ]. split; [ exact Eg | ]. split.
  - rewrite Eg, Rabs_mult.
    rewrite <- (Rmult_1_r (Rabs (rho_l c * g * L_eff d))) at 2.
    apply Rmult_le_compat_l; [ apply Rabs_pos | ].
    apply Rabs_le. destruct (SIN_bound (radians a)) as [B1 B2].
    split; assumption.
  - rewrite (as_dP_total _ _ Aa), (as_dP_total _ _ A), El, Ev. ring.
Qed.

Lemma orientation_changes_gravity_only_default :
  exists d da,
    derive default_config = Ok d
    /\ derive (with_phi_deg default_config 30) = Ok da
    /\ dP_cap da = dP_cap d
    /\ dP_total da - dP_total d = dP_g da - dP_g d.
Proof.
  destruct default_derive_ok as [d Hd].
  destruct (orientation_changes_gravity_only default_config d 30 Hd)
    as (da & H1 & H2 & _ & _ & _ & _ & H3).
  exists d, da. repeat split; assumption.
Defined.

(** X18: the gravitational drop is [rho_l g L_eff] when the chamber is
    vertical (90 degrees), and the opposite angle gives the opposite
    drop. *)
Theorem dP_g_special_angles (c : Configuration) (d : Derived) :
  derive c = Ok d ->
  (phi_deg c = 90 -> dP_g d = rho_l c * g * L_eff d)
  /\ (forall d', derive (with_phi_deg c (- phi_deg c)) = Ok d' ->
                 dP_g d' = - dP_g d).
Proof.
  intros H.
  assert (A := derive_assignments c d H).
  split.
  - intros E. rewrite (as_dP_g _ _ A), (as_phi _ _ A), E. unfold radians.
    replace (90 * (PI / 180)) with (PI / 2) by field.
    rewrite sin_PI2. ring.
  - intros d' H'.
    assert (A' := derive_assignments _ _ H').
    rewrite (as_dP_g _ _ A'), (as_phi _ _ A'), (as_L_eff _ _ A').
    rewrite (as_dP_g _ _ A), (as_phi _ _ A), (as_L_eff _ _ A).
    cbn [with_phi_deg phi_deg rho_l vc_length evap_length].
    unfold radians.
    replace (- phi_deg c * (PI / 180)) with (- (phi_deg c * (PI / 180)))
      by ring.
    rewrite sin_neg. ring.
Qed.

Lemma dP_g_special_angles_vertical :
  exists d, derive (with_phi_deg default_config 90) = Ok d
  /\ dP_g d = 977.8 * g * L_eff d.
Proof.
  destruct default_derive_ok as [d0 Hd0].
  destruct (derive_with_phi_deg default_config d0 90 Hd0) as (d & Hd & _).
  exists d. split; [ exact Hd | ].
  destruct (dP_g_special_angles _ d Hd) as (H1 & _).
  apply H1. reflexivity.
Defined.

(** X20: on a valid configuration with a positive filling ratio the liquid
    charge lies strictly between the filling ratio times the vapor space and
    the filling ratio times the whole interior (vapor space plus both wicks
    taken as empty), in the script's units (volume times 10^6). *)
Theorem liquid_charge_bounds (c : Configuration) (d : Derived) :
  valid_config c ->
  0 < filling_ratio c ->
  derive c = Ok d ->
  internal_area d * t_vapor c * filling_ratio c * 1e6
    < liquid_charge_volume_mL d
    < internal_area d * (t_vapor c + t_evap_wick d + t_cond_wick d)
      * filling_ratio c * 1e6.
Proof.
  intros V Hf H.
  destruct (valid_positive_divisors c d V H) as (_ & [Be0 Be1] & [Bc0 Bc1]).
  destruct V as [Hlen Hwid Htv Hel Hew Hks Hme Hde Hne Hmc Hdc Hnc
                 Hrl Hrv Hml Hmv Hh Hkl Hpe Hpc HA].
  assert (A := derive_assignments c d H).
  assert (Ha : 0 < internal_area d)
    by (rewrite (as_internal_area _ _ A); apply Rmult_lt_0_compat; assumption).
  assert (Hte : 0 < t_evap_wick d) by (rewrite (as_t_evap_wick _ _ A); pos).
  assert (Htc : 0 < t_cond_wick d) by (rewrite (as_t_cond_wick _ _ A); pos).
  rewrite (as_liquid_charge_volume_mL _ _ A), (as_vol_internal_total _ _ A),
    (as_vol_vapor_space _ _ A), (as_vol_evap_wick_pore _ _ A),
    (as_vol_cond_wick_pore _ _ A).
  set (ar := internal_area d) in *. set (te := t_evap_wick d) in *.
  set (tc := t_cond_wick d) in *. set (ee := epsilon_evap d) in *.
  set (ec := epsilon_cond d) in *. set (f := filling_ratio c) in *.
  assert (P1 : 0 < ar * te) by (apply Rmult_lt_0_compat; assumption).
  assert (P2 : 0 < ar * tc) by (apply Rmult_lt_0_compat; assumption).
  assert (Q1 : 0 < ar * te * ee < ar * te) by (split; nra).
  assert (Q2 : 0 < ar * tc * ec < ar * tc) by (split; nra).
  assert (Hf6 : 0 < f * 1e6) by (apply Rmult_lt_0_compat; lra).
  split.
  - replace (ar * t_vapor c * f * 1e6) with (ar * t_vapor c * (f * 1e6)) by ring.
    replace ((ar * t_vapor c + ar * te * ee + ar * tc * ec) * f * 1e6)
      with ((ar * t_vapor c + ar * te * ee + ar * tc * ec) * (f * 1e6)) by ring.
    apply Rmult_lt_compat_r; [ assumption | lra ].
  - replace (ar * (t_vapor c + te + tc) * f * 1e6)
      with ((ar * t_vapor c + ar * te + ar * tc) * (f * 1e6)) by ring.
    replace ((ar * t_vapor c + ar * te * ee + ar * tc * ec) * f * 1e6)
      with ((ar * t_vapor c + ar * te * ee + ar * tc * ec) * (f * 1e6)) by ring.
    apply Rmult_lt_compat_r; [ assumption | lra ].
Qed.

Lemma liquid_charge_bounds_default :
  exists d, derive default_config = Ok d
  /\ internal_area d * 0.00192 * 0.30 * 1e6
       < liquid_charge_volume_mL d
       < internal_area d * (0.00192 + t_evap_wick d + t_cond_wick d)
         * 0.30 * 1e6.
Proof.
  destruct default_derive_ok as [d Hd]. exists d.
  split; [ exact Hd | ].
  apply (liquid_charge_bounds default_config d default_valid);
    [ simpl; lra | exact Hd ].
Defined.

(** X21: on a valid configuration with positive wall thicknesses the
    phase-change constant is a floor of the thermal resistance: the ideal
    total exceeds 0.01 K/W, and with a positive correction factor and a
    positive load the predicted temperature drop exceeds
    [0.01 * factor * Q_in]. *)
Theorem phase_change_floor (c : Configuration) (d : Derived) :
  valid_config c ->
  0 < t_evap_wall c -> 0 < t_cond_wall c ->
  derive c = Ok d ->
  0.01 < R_total_ideal d
  /\ (0 < experimental_correction_factor c -> 0 < Q_in c ->
      0.01 * experimental_correction_factor c * Q_in c < delta_T d).
Proof.
  intros V Hwe Hwc H.
  destruct (valid_positive_divisors c d V H) as (P & Be & Bc).
  assert (A := derive_assignments c d H).
  destruct V as [Hlen Hwid Htv Hel Hew Hks Hme Hde Hne Hmc Hdc Hnc
                 Hrl Hrv Hml Hmv Hh Hkl Hpe Hpc HA].
  assert (D4 := pd_R_evap_wall _ _ P). assert (D5 := pd_R_evap_wick _ _ P).
  assert (D6 := pd_R_cond_wick _ _ P). assert (D7 := pd_R_cond_wall _ _ P).
  assert (Htew : 0 < t_evap_wick d) by (rewrite (as_t_evap_wick _ _ A); pos).
  assert (Htcw : 0 < t_cond_wick d) by (rewrite (as_t_cond_wick _ _ A); pos).
  assert (R1 : 0 < R_evap_wall d) by (rewrite (as_R_evap_wall _ _ A); pos).
  assert (R2 : 0 < R_evap_wick d) by (rewrite (as_R_evap_wick _ _ A); pos).
  assert (R3 : 0 < R_cond_wick d) by (rewrite (as_R_cond_wick _ _ A); pos).
  assert (R4 : 0 < R_cond_wall d) by (rewrite (as_R_cond_wall _ _ A); pos).
  assert (Ri : 0.01 < R_total_ideal d).
  { rewrite (as_R_total_ideal _ _ A), (as_R_phase_change _ _ A). lra. }
  split; [ exact Ri | ].
  intros Hf Hq.
  rewrite (as_delta_T _ _ A), (as_R_total_corrected _ _ A).
  set (f := experimental_correction_factor c) in *.
  set (q := Q_in c) in *. set (r := R_total_ideal d) in *.
  assert (0 < f * q) by (apply Rmult_lt_0_compat; assumption).
  replace (0.01 * f * q) with (0.01 * (f * q)) by ring.
  replace (q * (r * f)) with (r * (f * q)) by ring.
  apply Rmult_lt_compat_r; assumption.
Qed.

Lemma phase_change_floor_default :
  exists d, derive default_config = Ok d
  /\ 0.01 < R_total_ideal d
  /\ 0.01 * 1.2 * 150 < delta_T d.
Proof.
  destruct default_derive_ok as [d Hd]. exists d.
  destruct (phase_change_floor default_config d default_valid)
    as (H1 & H2); [ simpl; lra | simpl; lra | exact Hd | ].
  split; [ exact Hd | ]. split; [ exact H1 | ].
  apply H2; simpl; lra.
Defined.
